(** * WorkTool Pro content script and background worker: a shallow embedding

    Source: src/src/components/CopyTools.tsx holds two content-script
    versions one after the other.  The first one (lines ~75-1008, it logs
    "Content Script loaded with enhanced detection!") is embedded in
    [Module Enhanced]; the second one (lines ~1012-1599) in [Module Basic].
    The background worker (src/unnamed/part_002, with its older copy
    part_001) is embedded in [Module Background].

    DOM objects are records of the values the code reads from them; the
    effects the code has on the document (nodes appended to body or head,
    style rules rewritten) are explicit state passing. *)

From Stdlib Require Import String Ascii List ZArith QArith Bool Lia Permutation.
Import ListNotations.
Open Scope string_scope.

(** ** The DOM as the content script reads it *)

(** A table cell: [textContent.trim()] and [innerHTML.trim()]. *)
Record Cell := mkCell {
  cell_text : string;
  cell_html : string
}.

(** A table row is the list of its [cells]. *)
Definition Row := list Cell.

(** An [HTMLTableElement]:
    - [tbl_key] its object identity (used by the [Set] that deduplicates);
    - [tbl_has_rows] whether [table.rows] is defined;
    - [tbl_throws] whether [getBoundingClientRect] / [getComputedStyle]
      throws for it;
    - [tbl_display], [tbl_visibility] the computed style;
    - [tbl_rows] [table.rows];
    - [tbl_in_datepicker] whether [table.closest(".ui-datepicker")] is non-null;
    - [tbl_width], [tbl_height] the bounding client rectangle;
    - [tbl_outerHTML] its serialized markup. *)
Record TableEl := mkTable {
  tbl_key : nat;
  tbl_has_rows : bool;
  tbl_throws : bool;
  tbl_display : string;
  tbl_visibility : string;
  tbl_rows : list Row;
  tbl_in_datepicker : bool;
  tbl_width : Q;
  tbl_height : Q;
  tbl_outerHTML : string
}.

(** [table.rows[0]?.cells.length]: [None] is [undefined]. *)
Definition first_row_cells (rows : list Row) : option nat :=
  match rows with
  | r :: _ => Some (length r)
  | [] => None
  end.

(** [undefined >= k] is false in JavaScript. *)
Definition opt_ge (o : option nat) (k : nat) : bool :=
  match o with
  | Some n => Nat.leb k n
  | None => false
  end.

(** [x < y] on numbers. *)
Definition Qltb (x y : Q) : bool := negb (Qle_bool y x).

(** [const content = cell.textContent?.trim() || cell.innerHTML?.trim()] *)
Definition cell_content (c : Cell) : string :=
  if String.eqb (cell_text c) "" then cell_html c else cell_text c.

Definition cell_has_content (c : Cell) : bool :=
  Nat.ltb 0 (String.length (cell_content c)).

(** [String(n)] for a natural number: its decimal digits. *)
Fixpoint digits_aux (fuel n : nat) (acc : string) : string :=
  match fuel with
  | O => acc
  | S f =>
      let acc' := String (ascii_of_nat (48 + n mod 10)) acc in
      if Nat.ltb n 10 then acc' else digits_aux f (n / 10) acc'
  end.

Definition string_of_nat (n : nat) : string := digits_aux (S n) n "".

(** [s.includes(sub)] *)
Definition includes (s sub : string) : bool :=
  match String.index 0 sub s with Some _ => true | None => false end.

(** [Array.prototype.join] *)
Definition join (sep : string) (l : list string) : string := String.concat sep l.

(** The nodes the copy functions append to [document.body]. *)
Inductive Node :=
| NButton                     (* the temporary focus button *)
| NTextarea (value : string)  (* the temporary textarea of the legacy path *)
| NPage (k : nat).            (* a node of the page itself *)

(** The outcome of [document.execCommand('copy')]. *)
Inductive ExecOutcome := ExecTrue | ExecFalse | ExecThrows (msg : string).

(** What the browser answers to the clipboard calls:
    - [env_clipboard_api]: the feature test of the version at hand holds
      ([navigator.clipboard.writeText] is a function for the enhanced script,
      [navigator.clipboard !== undefined && window.isSecureContext] for the
      basic one);
    - [env_write_ok]: [navigator.clipboard.writeText] resolves (otherwise it
      rejects);
    - [env_exec]: what [document.execCommand('copy')] does. *)
Record ClipEnv := mkClipEnv {
  env_clipboard_api : bool;
  env_write_ok : bool;
  env_exec : ExecOutcome
}.

(** The part of the page the copy functions touch: the children of
    [document.body] and the system clipboard. *)
Record Page := mkPage {
  body : list Node;
  clipboard : string
}.

(** A [ChromeResponse]; absent fields are [None]. *)
Record ChromeResponse := mkResp {
  resp_status : option string;
  resp_success : option bool;
  resp_error : option string;
  resp_copyEnabled : option bool
}.

Definition ok_resp : ChromeResponse := mkResp None (Some true) None None.
Definition err_resp (e : string) : ChromeResponse :=
  mkResp None (Some false) (Some e) None.

(** [foundTables[i]] for an index already checked to be in range. *)
Definition table_at (foundTables : list TableEl) (i : Z) : option TableEl :=
  if (i <? 0)%Z then None else nth_error foundTables (Z.to_nat i).

(** [id >= 0 && id < foundTables.length] *)
Definition in_range (foundTables : list TableEl) (id : Z) : bool :=
  (0 <=? id)%Z && (id <? Z.of_nat (List.length foundTables))%Z.

(** Table outlines: [outline k] is [style.outline] of the table with key [k]. *)
Definition Outlines := nat -> string.

Definition set_outline (o : Outlines) (k : nat) (v : string) : Outlines :=
  fun k' => if Nat.eqb k' k then v else o k'.

(** ** The enhanced content script (first version in CopyTools.tsx) *)
Module Enhanced.

(** The strict-mode content scan: the first 5 rows, the first 10 cells of
    each, looking for one with non-empty content. *)
Definition scan_window (rows : list Row) : bool :=
  existsb (fun row => Nat.ltb 0 (List.length row) &&
                      existsb cell_has_content (firstn 10 row))
          (firstn 5 rows).

(** [isValidTable(table, relaxedMode)], CopyTools.tsx lines 269-348. *)
Definition isValidTable (table : TableEl) (relaxedMode : bool) : bool :=
  (* 1. if (!table || !table.rows) return false *)
  if negb (tbl_has_rows table) then false else
  (* getBoundingClientRect / getComputedStyle: a throw goes to catch *)
  if tbl_throws table then relaxedMode else
  (* 2. hidden *)
  if String.eqb (tbl_display table) "none"
     || String.eqb (tbl_visibility table) "hidden" then false else
  let rows := tbl_rows table in
  (* 3. table.rows.length < 1 *)
  if Nat.ltb (List.length rows) 1 then false else
  (* 4. content *)
  let hasAnyContent :=
    if relaxedMode then
      Nat.leb 1 (List.length rows) && opt_ge (first_row_cells rows) 1
    else
      if scan_window rows then true
      else Nat.leb 2 (List.length rows) && opt_ge (first_row_cells rows) 2 in
  if negb hasAnyContent then false else
  (* 5. date-picker exclusion, strict mode only *)
  if negb relaxedMode && tbl_in_datepicker table then false else
  (* 6. size *)
  if Qltb (tbl_width table) 10 || Qltb (tbl_height table) 5 then false else
  true.

(** [getTableInfo]: row count and cell count of the first row. *)
Definition getTableInfo (table : TableEl) : nat * nat :=
  (List.length (tbl_rows table),
   match first_row_cells (tbl_rows table) with Some n => n | None => 0%nat end).

(** A [TableInfo] descriptor; the preview string built by
    [getTablePreview] is not part of this embedding (no property below
    depends on it). *)
Record TableInfo := mkInfo { info_id : nat; info_rows : nat; info_cols : nat }.

(** [if (!processedTables.has(table)) { allTables.push(table); processedTables.add(table) }]
    over a list of candidates, in order. *)
Fixpoint push_unique (processed : list nat) (acc : list TableEl)
         (ts : list TableEl) : list nat * list TableEl :=
  match ts with
  | [] => (processed, acc)
  | t :: ts' =>
      if existsb (Nat.eqb (tbl_key t)) processed
      then push_unique processed acc ts'
      else push_unique (tbl_key t :: processed) (acc ++ [t]) ts'
  end.

(** The candidates: main document tables, tables of accessible iframes,
    tables inside grid-like containers, deduplicated by identity. *)
Definition collectTables (mainTables iframeTables containerTables : list TableEl)
  : list TableEl :=
  let '(p1, a1) := push_unique [] [] mainTables in
  let '(p2, a2) := push_unique p1 a1 iframeTables in
  snd (push_unique p2 a2 containerTables).

(** [findTables(relaxedMode)], lines 424-484: the new [foundTables] and the
    descriptors returned. *)
Definition findTables (relaxedMode : bool)
           (mainTables iframeTables containerTables : list TableEl)
  : list TableEl * list TableInfo :=
  let allTables := collectTables mainTables iframeTables containerTables in
  let foundTables := filter (fun t => isValidTable t relaxedMode) allTables in
  (foundTables,
   map (fun '(index, t) => let '(r, c) := getTableInfo t in mkInfo index r c)
       (combine (seq 0 (List.length foundTables)) foundTables)).

(** The clipboard write shared by the three copy functions of this version
    (e.g. lines 582-622): the Clipboard API behind a temporary button, then
    the legacy textarea path.  When [writeText] rejects, the
    [removeChild(tempButton)] after the [await] is skipped.  A throw of
    [execCommand] goes to the outer [catch] and skips the textarea removal. *)
Definition write_clipboard (env : ClipEnv) (tableHtml : string) (p : Page)
  : ChromeResponse * Page :=
  let body0 := body p in
  let '(done, body1, clip1) :=
    if env_clipboard_api env then
      if env_write_ok env
      then (true, body0, tableHtml)                 (* button removed *)
      else (false, (body0 ++ [NButton])%list, clipboard p) (* button left behind *)
    else (false, body0, clipboard p) in
  if done then (ok_resp, mkPage body1 clip1) else
  let body2 := (body1 ++ [NTextarea tableHtml])%list in
  match env_exec env with
  | ExecThrows msg => (err_resp msg, mkPage body2 clip1)
  | ExecFalse =>
      (err_resp "复制命令执行失败，请确保页面处于活动状态", mkPage body1 clip1)
  | ExecTrue => (ok_resp, mkPage body1 tableHtml)
  end.

(** [copyTablesToClipboard], lines 519-570. *)
Definition copyTablesToClipboard (env : ClipEnv) (foundTables : list TableEl)
           (p : Page) : ChromeResponse * Page :=
  match foundTables with
  | [] => (err_resp "没有找到表格", p)
  | _ =>
      let tableHtml := join (String "010" (String "010" "")) (map tbl_outerHTML foundTables) in
      write_clipboard env tableHtml p
  end.

(** [copySingleTableToClipboard], lines 573-624. *)
Definition copySingleTableToClipboard (env : ClipEnv) (foundTables : list TableEl)
           (tableId : Z) (p : Page) : ChromeResponse * Page :=
  if (tableId <? 0)%Z || (Z.of_nat (List.length foundTables) <=? tableId)%Z
  then (err_resp "无效的表格ID", p)
  else match table_at foundTables tableId with
       | Some table => write_clipboard env (tbl_outerHTML table) p
       | None => (err_resp "无效的表格ID", p) (* unreachable: index in range *)
       end.

(** [selectedIds.filter(id => id >= 0 && id < foundTables.length).map(id => foundTables[id])] *)
Definition select_tables (foundTables : list TableEl) (selectedIds : list Z)
  : list TableEl :=
  flat_map (fun id => match table_at foundTables id with
                      | Some t => [t] | None => [] end)
           (filter (in_range foundTables) selectedIds).

(** [copySelectedTablesToClipboard], lines 628-686. *)
Definition copySelectedTablesToClipboard (env : ClipEnv) (foundTables : list TableEl)
           (selectedIds : list Z) (p : Page) : ChromeResponse * Page :=
  match selectedIds with
  | [] => (err_resp "没有选中的表格", p)
  | _ =>
      match select_tables foundTables selectedIds with
      | [] => (err_resp "选中的表格ID无效", p)
      | selectedTables =>
          let tableHtml := join (String "010" (String "010" ""))
                                (map tbl_outerHTML selectedTables) in
          write_clipboard env tableHtml p
      end
  end.

(** [clearHighlight], lines 507-516: every table of [foundTables] loses its
    outline. *)
Definition clearHighlight (foundTables : list TableEl) (o : Outlines) : Outlines :=
  fold_left (fun o t => set_outline o (tbl_key t) "") foundTables o.

(** [highlightTable(tableId)], lines 488-502. *)
Definition highlightTable (foundTables : list TableEl) (tableId : Z) (o : Outlines)
  : Outlines :=
  let o1 := clearHighlight foundTables o in
  if (0 <=? tableId)%Z && (tableId <? Z.of_nat (List.length foundTables))%Z
  then match table_at foundTables tableId with
       | Some t => set_outline o1 (tbl_key t) "3px solid #ff6b6b"
       | None => o1
       end
  else o1.

(** The ["highlightTable"] case of the message listener, lines 907-913. *)
Definition handle_highlightTable (foundTables : list TableEl) (tableId : option Z)
           (o : Outlines) : ChromeResponse * Outlines :=
  let o' := match tableId with
            | Some id => highlightTable foundTables id o
            | None => o
            end in
  (ok_resp, o').

End Enhanced.

(** ** The basic content script (second version in CopyTools.tsx) *)
Module Basic.

Definition nl : string := String "010" "".

(** The clipboard write shared by the three copy functions of this version
    (e.g. lines 1168-1197): the Clipboard API, then the legacy textarea path
    whose [finally] always removes the textarea. *)
Definition write_clipboard (env : ClipEnv) (text : string) (p : Page)
  : ChromeResponse * Page :=
  if env_clipboard_api env && env_write_ok env
  then (ok_resp, mkPage (body p) text)
  else
    match env_exec env with
    | ExecTrue => (mkResp None (Some true) None None, mkPage (body p) text)
    | ExecFalse =>
        (mkResp None (Some false) (Some "execCommand复制失败") None, p)
    | ExecThrows msg =>
        (mkResp None (Some false) (Some ("execCommand错误: " ++ msg)) None, p)
    end.

(** [`=== 表格 ${tableId + 1} ===\n` + table.outerHTML + "\n"] *)
Definition labelled (index : nat) (table : TableEl) : string :=
  "=== 表格 " ++ string_of_nat (S index) ++ " ===" ++ nl
  ++ tbl_outerHTML table ++ nl.

(** [copySingleTableToClipboard], lines 1156-1202. *)
Definition copySingleTableToClipboard (env : ClipEnv) (foundTables : list TableEl)
           (tableId : Z) (p : Page) : ChromeResponse * Page :=
  if (tableId <? 0)%Z || (Z.of_nat (List.length foundTables) <=? tableId)%Z
  then (err_resp "表格ID无效", p)
  else match table_at foundTables tableId with
       | Some table => write_clipboard env (labelled (Z.to_nat tableId) table) p
       | None => (err_resp "表格ID无效", p) (* unreachable: index in range *)
       end.

(** The [map] of [copySelectedTablesToClipboard]: [null] for an id out of
    range, the labelled markup otherwise. *)
Definition selected_text (foundTables : list TableEl) (tableId : Z) : option string :=
  if (tableId <? 0)%Z || (Z.of_nat (List.length foundTables) <=? tableId)%Z
  then None
  else option_map (labelled (Z.to_nat tableId)) (table_at foundTables tableId).

(** [.filter(Boolean)]: drops [null] and the empty string. *)
Definition filter_Boolean (l : list (option string)) : list string :=
  flat_map (fun o => match o with
                     | Some s => if String.eqb s "" then [] else [s]
                     | None => []
                     end) l.

(** [copySelectedTablesToClipboard], lines 1205-1263. *)
Definition copySelectedTablesToClipboard (env : ClipEnv) (foundTables : list TableEl)
           (selectedIds : list Z) (p : Page) : ChromeResponse * Page :=
  match selectedIds with
  | [] => (err_resp "没有选择表格", p)
  | _ =>
      let tablesText :=
        join nl (filter_Boolean (map (selected_text foundTables) selectedIds)) in
      if String.eqb tablesText "" then (err_resp "没有有效的表格", p)
      else write_clipboard env tablesText p
  end.

(** The payload of [copyTablesToClipboard]: every table labelled with its
    1-based position, joined by a newline. *)
Definition all_tables_text (foundTables : list TableEl) : string :=
  join nl (map (fun '(index, t) => labelled index t)
               (combine (seq 0 (List.length foundTables)) foundTables)).

(** [copyTablesToClipboard], lines 1266-1314. *)
Definition copyTablesToClipboard (env : ClipEnv) (foundTables : list TableEl)
           (p : Page) : ChromeResponse * Page :=
  match foundTables with
  | [] => (err_resp "没有找到表格", p)
  | _ => write_clipboard env (all_tables_text foundTables) p
  end.

(** Outlines and [previouslyHighlighted] (by table key). *)
Record HighlightState := mkHL {
  outlines : Outlines;
  previouslyHighlighted : option nat
}.

(** [clearHighlight], lines 1125-1130. *)
Definition clearHighlight (s : HighlightState) : HighlightState :=
  match previouslyHighlighted s with
  | Some k => mkHL (set_outline (outlines s) k "") None
  | None => s
  end.

(** [highlightTable(tableId)], lines 1133-1141: [foundTables[tableId]] is
    [undefined] outside the array. *)
Definition highlightTable (foundTables : list TableEl) (tableId : Z)
           (s : HighlightState) : HighlightState :=
  let s1 := clearHighlight s in
  match table_at foundTables tableId with
  | Some t => mkHL (set_outline (outlines s1) (tbl_key t) "3px solid #007bff")
                   (Some (tbl_key t))
  | None => s1
  end.

(** The ["highlightTable"] case of the message listener, lines 1526-1532. *)
Definition handle_highlightTable (foundTables : list TableEl) (tableId : option Z)
           (s : HighlightState) : ChromeResponse * HighlightState :=
  let s' := match tableId with
            | Some id => highlightTable foundTables id s
            | None => s
            end in
  (ok_resp, s').

End Basic.

(** ** Style sheets and the copy-protection toggle *)

(** A CSS rule of [sheet.cssRules]: its identity, whether it is a
    [CSSStyleRule], its [selectorText] and its declarations
    (property, value) in order. *)
Record CSSRule := mkRule {
  rule_id : nat;
  is_style_rule : bool;
  selectorText : string;
  decls : list (string * string)
}.

(** [rule.cssText]: the CSSOM serialization ["sel { p: v; q: w; }"]. *)
Definition cssText (r : CSSRule) : string :=
  selectorText r ++ " { "
  ++ String.concat "" (map (fun '(prop, v) => prop ++ ": " ++ v ++ "; ") (decls r))
  ++ "}".

(** [rule.style.removeProperty(prop)] *)
Definition removeProperty (prop : string) (r : CSSRule) : CSSRule :=
  mkRule (rule_id r) (is_style_rule r) (selectorText r)
         (filter (fun '(p, _) => negb (String.eqb p prop)) (decls r)).

(** [rule.style[prop]] for a declared property. *)
Definition style_get (r : CSSRule) (prop : string) : option string :=
  option_map snd (find (fun '(p, _) => String.eqb p prop) (decls r)).

(** A style sheet: [sheet_accessible] is false for a cross-origin sheet
    whose [cssRules] throws. *)
Record StyleSheet := mkSheet {
  sheet_accessible : bool;
  cssRules : list CSSRule
}.

(** The capturing listeners the disable path registers on [document]. *)
Inductive Listener :=
| StopPropagation (eventType : string)
| PreventDefault (eventType : string).

(** The page state the toggle reads and writes: [document.styleSheets],
    the [textContent] of every [<style>] element (page ones and injected
    ones, in document order) and the listeners added to [document]. *)
Record StyleDoc := mkStyleDoc {
  styleSheets : list StyleSheet;
  styleElements : list string;
  listeners : list Listener
}.

Module EnhancedProtection.

(** The [textContent] of the injected style element, lines 714-721. *)
Definition override_text : string :=
  join Basic.nl
    [""; "      * {";
     "        -webkit-user-select: text !important;";
     "        -moz-user-select: text !important;";
     "        -ms-user-select: text !important;";
     "        user-select: text !important;";
     "      }";
     "    "].

(** [cssRule.style && (userSelect === 'none' || webkitUserSelect === 'none')] *)
Definition blocks_selection (r : CSSRule) : bool :=
  is_style_rule r &&
  (match style_get r "user-select" with Some v => String.eqb v "none" | None => false end
   || match style_get r "-webkit-user-select" with
      | Some v => String.eqb v "none" | None => false end).

(** [sheet.deleteRule(index)] on the live list: [None] is the
    [IndexSizeError] thrown past its end. *)
Fixpoint deleteRule (index : nat) (rs : list CSSRule) : option (list CSSRule) :=
  match rs, index with
  | [], _ => None
  | _ :: rs', O => Some rs'
  | r :: rs', S i => option_map (cons r) (deleteRule i rs')
  end.

(** [rules.forEach((rule, index) => ... sheet.deleteRule(index))] over the
    snapshot [rules], the live list changing under it; a throw leaves the
    [forEach] (caught per sheet), keeping the deletions already done. *)
Fixpoint delete_blocking (index : nat) (snapshot live : list CSSRule) : list CSSRule :=
  match snapshot with
  | [] => live
  | r :: snap' =>
      if blocks_selection r then
        match deleteRule index live with
        | Some live' => delete_blocking (S index) snap' live'
        | None => live
        end
      else delete_blocking (S index) snap' live
  end.

Definition clean_sheet (sh : StyleSheet) : StyleSheet :=
  if sheet_accessible sh
  then mkSheet true (delete_blocking 0 (cssRules sh) (cssRules sh))
  else sh.

(** [disableCopyProtection], lines 690-728. *)
Definition disableCopyProtection (d : StyleDoc) : StyleDoc :=
  mkStyleDoc (map clean_sheet (styleSheets d))
             (styleElements d ++ [override_text])%list
             (listeners d).

(** [enableCopyProtection], lines 731-745: removes every [<style>] whose text
    contains ['user-select: text !important']. *)
Definition enableCopyProtection (d : StyleDoc) : StyleDoc :=
  mkStyleDoc (styleSheets d)
             (filter (fun t => negb (includes t "user-select: text !important"))
                     (styleElements d))
             (listeners d).

(** [toggleCopyProtection], lines 748-760, with the module-level flag
    [copyProtectionDisabled]. *)
Definition toggleCopyProtection (st : bool * StyleDoc) : ChromeResponse * (bool * StyleDoc) :=
  let '(copyProtectionDisabled, d) := st in
  if copyProtectionDisabled
  then (mkResp None (Some true) None (Some false), (false, enableCopyProtection d))
  else (mkResp None (Some true) None (Some true), (true, disableCopyProtection d)).

End EnhancedProtection.

Module BasicProtection.

(** The selector test of [disableCopyProtection], lines 1327-1335. *)
Definition selector_matches (selector : string) : bool :=
  existsb (includes selector)
    ["user-select"; "-webkit-user-select"; "-moz-user-select"; "-ms-user-select";
     "pointer-events"; "::selection"; "::-moz-selection"].

(** [originalStyles: Map<CSSStyleRule, string>] keyed by rule identity, in
    insertion order; [Map.set] overwrites in place. *)
Definition SaveTable := list (nat * string).

Fixpoint map_set (k : nat) (v : string) (m : SaveTable) : SaveTable :=
  match m with
  | [] => [(k, v)]
  | (k', v') :: m' => if Nat.eqb k k' then (k, v) :: m' else (k', v') :: map_set k v m'
  end.

(** The five [removeProperty] calls, lines 1339-1343. *)
Definition strip (r : CSSRule) : CSSRule :=
  removeProperty "pointer-events"
    (removeProperty "-ms-user-select"
       (removeProperty "-moz-user-select"
          (removeProperty "-webkit-user-select"
             (removeProperty "user-select" r)))).

(** One rule of the [forEach]: save [cssText], then strip. *)
Definition visit_rule (m : SaveTable) (r : CSSRule) : SaveTable * CSSRule :=
  if is_style_rule r && selector_matches (selectorText r)
  then (map_set (rule_id r) (cssText r) m, strip r)
  else (m, r).

Fixpoint visit_rules (m : SaveTable) (rs : list CSSRule) : SaveTable * list CSSRule :=
  match rs with
  | [] => (m, [])
  | r :: rs' =>
      let '(m1, r') := visit_rule m r in
      let '(m2, rs'') := visit_rules m1 rs' in
      (m2, r' :: rs'')
  end.

Fixpoint visit_sheets (m : SaveTable) (shs : list StyleSheet)
  : SaveTable * list StyleSheet :=
  match shs with
  | [] => (m, [])
  | sh :: shs' =>
      let '(m1, sh') :=
        if sheet_accessible sh
        then let '(m1, rs) := visit_rules m (cssRules sh) in (m1, mkSheet true rs)
        else (m, sh) in
      let '(m2, shs'') := visit_sheets m1 shs' in
      (m2, sh' :: shs'')
  end.

(** The [textContent] of [allowCopyStyle], lines 1355-1373. *)
Definition allow_copy_text : string :=
  join Basic.nl
    [""; "    * {";
     "      -webkit-user-select: auto !important;";
     "      -moz-user-select: auto !important;";
     "      -ms-user-select: auto !important;";
     "      user-select: auto !important;";
     "      -webkit-touch-callout: auto !important;";
     "      -webkit-tap-highlight-color: transparent !important;";
     "    }";
     "    ::selection {";
     "      background: #007bff !important;";
     "      color: white !important;";
     "    }";
     "    ::-moz-selection {";
     "      background: #007bff !important;";
     "      color: white !important;";
     "    }";
     "  "].

(** The listeners registered by lines 1376-1394. *)
Definition added_listeners : list Listener :=
  map StopPropagation
      ["copy"; "cut"; "selectstart"; "select"; "contextmenu";
       "mousedown"; "mouseup"; "keydown"; "keyup"]
  ++ [PreventDefault "contextmenu"; StopPropagation "selectstart"].

(** The toggle state: [originalStyles], [copyProtectionDisabled] and the page. *)
Record ProtState := mkProt {
  originalStyles : SaveTable;
  copyProtectionDisabled : bool;
  doc : StyleDoc
}.

(** [disableCopyProtection], lines 1318-1397. *)
Definition disableCopyProtection (s : ProtState) : ChromeResponse * ProtState :=
  let '(m, shs) := visit_sheets (originalStyles s) (styleSheets (doc s)) in
  (mkResp None (Some true) None (Some true),
   mkProt m true
     (mkStyleDoc shs (styleElements (doc s) ++ [allow_copy_text])%list
                 (listeners (doc s) ++ added_listeners)%list)).

(** [rule.cssText = originalStyle].  The CSSOM specification defines
    [CSSRule.cssText] as: "on setting the cssText attribute must do
    nothing"; the assignment leaves the rule as it is. *)
Definition set_rule_cssText (r : CSSRule) (originalStyle : string) : CSSRule := r.

(** [originalStyles.forEach((originalStyle, rule) => rule.cssText = originalStyle)] *)
Definition restore_rule (m : SaveTable) (r : CSSRule) : CSSRule :=
  match find (fun '(k, _) => Nat.eqb k (rule_id r)) m with
  | Some (_, originalStyle) => set_rule_cssText r originalStyle
  | None => r
  end.

Definition restore_sheets (m : SaveTable) (shs : list StyleSheet) : list StyleSheet :=
  map (fun sh => mkSheet (sheet_accessible sh) (map (restore_rule m) (cssRules sh))) shs.

(** [enableCopyProtection], lines 1400-1417. *)
Definition enableCopyProtection (s : ProtState) : ChromeResponse * ProtState :=
  let shs := restore_sheets (originalStyles s) (styleSheets (doc s)) in
  (mkResp None (Some true) None (Some false),
   mkProt [] false
     (mkStyleDoc shs
        (filter (fun t => negb (includes t "user-select: auto")) (styleElements (doc s)))
        (listeners (doc s)))).

(** [toggleCopyProtection], lines 1420-1434. *)
Definition toggleCopyProtection (s : ProtState) : ChromeResponse * ProtState :=
  if copyProtectionDisabled s then enableCopyProtection s else disableCopyProtection s.

End BasicProtection.

(** ** The detection loop of the enhanced content script *)
Module Detection.

Definition MAX_DETECTION_ATTEMPTS : nat := 15.

(** The module-level [lastTableCount] and [detectionAttempts]. *)
Record DetState := mkDet {
  lastTableCount : nat;
  detectionAttempts : nat
}.

(** [Math.min(2000 * Math.pow(1.5, n - 1), 10000)]; the powers of 1.5
    involved are exact in double precision. *)
Definition backoff (n : nat) : Q :=
  let d := (2000 * Qpower (3 # 2) (Z.of_nat (n - 1)))%Q in
  if Qle_bool d 10000 then d else 10000.

(** [performTableDetection] (lines 156-188) up to its [await]: the
    notification test on the count [findTables(true)] returned.  Result:
    the new state and whether [updateTables] is sent; when it is, the scan
    is suspended until the send settles. *)
Definition scan_begin (st : DetState) (currentTableCount : nat) : DetState * bool :=
  if negb (Nat.eqb currentTableCount (lastTableCount st))
     || Nat.eqb (detectionAttempts st) 0
  then (mkDet currentTableCount (detectionAttempts st), true)
  else (st, false).

(** The rest of the scan, after the send settled (a rejection is caught
    and ignored): [detectionAttempts++] and the retry it schedules, if
    any.  [findTables] catches its own errors, so the outer [catch] is not
    reached. *)
Definition scan_end (st : DetState) (currentTableCount : nat) : DetState * option Q :=
  let attempts' := S (detectionAttempts st) in
  let next :=
    if Nat.eqb currentTableCount 0 && Nat.ltb attempts' MAX_DETECTION_ATTEMPTS
    then Some (backoff attempts')
    else None in
  (mkDet (lastTableCount st) attempts', next).

(** One call of [performTableDetection] when no other scan runs while its
    send is pending: the new state, whether the notification was sent, and
    the retry scheduled.  Whether the message was [delivered] changes
    nothing. *)
Definition performTableDetection (st : DetState) (currentTableCount : nat)
           (delivered : bool) : DetState * bool * option Q :=
  let '(st1, notify) := scan_begin st currentTableCount in
  let _ := delivered in
  let '(st2, next) := scan_end st1 currentTableCount in
  (st2, notify, next).

(** Successive scans, whatever triggers them (the initial timers, the load
    event, the debounced mutation observer, [visibilitychange], the
    30-second poll or a retry timer), each one finished before the next
    starts.  The result lists the retry each scan schedules. *)
Fixpoint scans (st : DetState) (inputs : list (nat * bool)) : DetState * list (option Q) :=
  match inputs with
  | [] => (st, [])
  | (count, delivered) :: rest =>
      let '(st1, _, next) := performTableDetection st count delivered in
      let '(st2, nexts) := scans st1 rest in
      (st2, next :: nexts)
  end.

(** Scans that overlap: [Begin count] starts a scan that counted [count]
    tables (a timer or event fires while other scans may be waiting on
    their send); [Settle k] is the settling of the send of the [k]-th
    suspended scan, which then finishes. *)
Inductive DetEvent :=
| Begin (count : nat)
| Settle (k : nat).

(** What is observed: an [updateTables] send with its count, or the
    end of a scan with the retry it schedules. *)
Inductive DetOutput :=
| Notified (count : nat)
| Finished (next : option Q).

(** Removes the [k]-th element. *)
Fixpoint remove_nth {A} (k : nat) (l : list A) : list A :=
  match l, k with
  | [], _ => []
  | _ :: l', O => l'
  | x :: l', S k' => x :: remove_nth k' l'
  end.

(** A run: the state, the counts of the suspended scans, the outputs. *)
Fixpoint run_events (st : DetState) (pending : list nat) (evs : list DetEvent)
  : DetState * list nat * list DetOutput :=
  match evs with
  | [] => (st, pending, [])
  | Begin count :: rest =>
      let '(st1, notify) := scan_begin st count in
      if notify then
        let '(st2, pending2, outs) := run_events st1 (pending ++ [count])%list rest in
        (st2, pending2, Notified count :: outs)
      else
        let '(st2, next) := scan_end st1 count in
        let '(st3, pending3, outs) := run_events st2 pending rest in
        (st3, pending3, Finished next :: outs)
  | Settle k :: rest =>
      match nth_error pending k with
      | Some count =>
          let '(st1, next) := scan_end st count in
          let '(st2, pending2, outs) := run_events st1 (remove_nth k pending) rest in
          (st2, pending2, Finished next :: outs)
      | None => run_events st pending rest
      end
  end.

End Detection.

(** ** The background worker (src/unnamed/part_002) *)
Module Background.

(** A [RequestHeader] of the popup. *)
Record RequestHeader := mkHeader {
  h_id : string;
  h_name : string;
  h_value : string;
  h_enabled : bool
}.

Definition resourceTypes : list string :=
  ["main_frame"; "sub_frame"; "stylesheet"; "script"; "image"; "font"; "object";
   "xmlhttprequest"; "ping"; "csp_report"; "media"; "websocket"; "other"].

(** A dynamic [declarativeNetRequest] rule as built by [updateNetworkRules]. *)
Record DynRule := mkDynRule {
  dr_id : nat;
  dr_priority : nat;
  dr_header : string;
  dr_operation : string;
  dr_value : string;
  dr_urlFilter : string;
  dr_resourceTypes : list string
}.

(** No id occurs twice. *)
Fixpoint nodupb (l : list nat) : bool :=
  match l with
  | [] => true
  | x :: l' => negb (existsb (Nat.eqb x) l') && nodupb l'
  end.

(** An HTTP token character (RFC 9110 [tchar]). *)
Definition is_tchar (c : ascii) : bool :=
  let n := nat_of_ascii c in
  (Nat.leb 48 n && Nat.leb n 57) || (Nat.leb 65 n && Nat.leb n 90) ||
  (Nat.leb 97 n && Nat.leb n 122) ||
  existsb (Nat.eqb n) [33; 35; 36; 37; 38; 39; 42; 43; 45; 46; 94; 95; 96; 124; 126]%nat.

(** The platform's checks on a [modifyHeaders] entry: the header name is a
    non-empty token, the value holds no NUL, CR or LF. *)
Definition valid_header_name (s : string) : bool :=
  negb (String.eqb s "") && forallb is_tchar (list_ascii_of_string s).
Definition valid_header_value (s : string) : bool :=
  forallb (fun c => negb (existsb (Nat.eqb (nat_of_ascii c)) [0; 10; 13]%nat))
          (list_ascii_of_string s).

Definition rule_valid (r : DynRule) : bool :=
  valid_header_name (dr_header r) && valid_header_value (dr_value r).

(** [chrome.declarativeNetRequest.updateDynamicRules({addRules, removeRuleIds})]:
    removes the listed ids, then adds the new rules; it rejects the whole
    call, changing nothing, when an added rule fails the header checks or
    an added id is already installed or added twice. *)
Definition updateDynamicRules (addRules : list DynRule) (removeRuleIds : list nat)
           (installed : list DynRule) : option (list DynRule) :=
  let kept := filter (fun r => negb (existsb (Nat.eqb (dr_id r)) removeRuleIds)) installed in
  let ids := map dr_id (kept ++ addRules) in
  if forallb rule_valid addRules && nodupb ids then Some (kept ++ addRules)%list else None.

(** [chrome.declarativeNetRequest.getDynamicRules()] *)
Definition getDynamicRules (installed : list DynRule) : list DynRule := installed.

(** [clearNetworkRules], lines 115-131: removes every installed rule;
    [None] is a rejection, rethrown. *)
Definition clearNetworkRules (installed : list DynRule) : option (list DynRule) :=
  let ruleIds := map dr_id (getDynamicRules installed) in
  match ruleIds with
  | [] => Some installed
  | _ => updateDynamicRules [] ruleIds installed
  end.

(** The rule built for [customHeaders[index]], lines 82-99. *)
Definition header_rule (index : nat) (header : RequestHeader) : DynRule :=
  mkDynRule (S index) 1 (h_name header) "set" (h_value header) "*://*/*" resourceTypes.

(** [customHeaders.map((header, index) => ...)] *)
Definition build_rules (customHeaders : list RequestHeader) : list DynRule :=
  map (fun '(index, h) => header_rule index h)
      (combine (seq 0 (List.length customHeaders)) customHeaders).

(** [updateNetworkRules], lines 72-112: whether it resolves, and the
    installed rules afterwards.  The two platform calls are awaited one
    after the other, so a rejection of the second leaves the rules the
    first one cleared. *)
Definition updateNetworkRules (customHeaders : list RequestHeader)
           (installed : list DynRule) : bool * list DynRule :=
  match clearNetworkRules installed with
  | None => (false, installed)
  | Some cleared =>
      match customHeaders with
      | [] => (true, cleared)
      | _ => match updateDynamicRules (build_rules customHeaders) [] cleared with
             | Some rules => (true, rules)
             | None => (false, cleared)
             end
      end
  end.

(** The background state: [customHeaders] and the installed dynamic rules. *)
Record BgState := mkBg {
  customHeaders : list RequestHeader;
  dynamicRules : list DynRule
}.

(** The ["applyHeaders"] case of the background listener, lines 29-45
    ([isReady] is set when the worker script has run, line 152).  On a
    rejection the answer carries the platform's [error.message], stood for
    here by a fixed text.  [customHeaders] is set before the rules are
    updated, whatever the outcome. *)
Definition applyHeaders (headers : list RequestHeader) (st : BgState)
  : ChromeResponse * BgState :=
  let '(resolved, rules) := updateNetworkRules headers (dynamicRules st) in
  (if resolved then ok_resp else err_resp "updateDynamicRules rejected", mkBg headers rules).

End Background.

(** ** Sending a message with retries (enhanced content script) *)
Module Messaging.

(** What one [chrome.runtime.sendMessage] call does: it resolves with the
    answer ([None] is [undefined]) or rejects with an error message. *)
Inductive SendOutcome :=
| Delivered (r : option ChromeResponse)
| Failed (e : string).

(** How the promise returned by [sendMessageWithRetry] settles. *)
Inductive Settled :=
| Resolved (r : option ChromeResponse)
| Rejected (e : string).

(** The [for] loop of [sendMessageWithRetry], CopyTools.tsx lines 139-153,
    from iteration [i]; [fuel] is [maxRetries - i] and [attempt i] the
    outcome of the send of iteration [i].  Result: how the call settles,
    the number of sends and the time waited in milliseconds
    ([1000 * Math.pow(2, i)] is exact in double precision). *)
Fixpoint retry_loop (attempt : nat -> SendOutcome) (maxRetries i fuel : nat)
  : Settled * nat * nat :=
  match fuel with
  | O => (Resolved None, 0%nat, 0%nat) (* loop left: the function returns undefined *)
  | S f =>
      match attempt i with
      | Delivered r => (Resolved r, 1%nat, 0%nat)
      | Failed e =>
          if Nat.eqb i (maxRetries - 1) then (Rejected e, 1%nat, 0%nat)
          else let '(res, n, w) := retry_loop attempt maxRetries (S i) f in
               (res, S n, (1000 * 2 ^ i + w)%nat)
      end
  end.

(** [pingResponse?.success || pingResponse?.status === 'ready'] *)
Definition ping_ready (r : option ChromeResponse) : bool :=
  match r with
  | Some r =>
      match resp_success r with
      | Some true => true
      | _ => match resp_status r with Some s => String.eqb s "ready" | None => false end
      end
  | None => false
  end.

(** [sendMessageWithRetry(message, maxRetries)], lines 127-154, with the
    module-level flag [backgroundReady]: the ping pre-check (a send of its
    own whose rejection is swallowed), then the loop.  Result: the new
    flag, how the call settles, the number of [sendMessage] calls and the
    time waited. *)
Definition sendMessageWithRetry (backgroundReady : bool) (action : string)
           (ping : SendOutcome) (attempt : nat -> SendOutcome) (maxRetries : nat)
  : bool * Settled * nat * nat :=
  let '(ready', pings) :=
    if negb backgroundReady && negb (String.eqb action "ping") then
      match ping with
      | Delivered r => (ping_ready r, 1%nat)
      | Failed _ => (backgroundReady, 1%nat)
      end
    else (backgroundReady, 0%nat) in
  let '(res, n, w) := retry_loop attempt maxRetries 0 maxRetries in
  (ready', res, (pings + n)%nat, w).

End Messaging.

(** ** The message listener of the background worker (part_002, lines 9-69) *)
Module Worker.
Import Background.

(** A message: its [action] and its optional [headers]. *)
Record BgRequest := mkReq {
  action : string;
  req_headers : option (list RequestHeader)
}.

(** An answer of the worker; absent fields are [None]. *)
Record BgResponse := mkBgResp {
  br_success : bool;
  br_error : option string;
  br_status : option string;
  br_headers : option (list RequestHeader)
}.

Definition bg_ok : BgResponse := mkBgResp true None None None.
Definition bg_err (e : string) : BgResponse := mkBgResp false (Some e) None None.

Definition of_response (r : ChromeResponse) : BgResponse :=
  mkBgResp (match resp_success r with Some b => b | None => false end)
           (resp_error r) None None.

(** The listener, given the flag [isReady] (set by line 152 when the
    script has run, and by the install, startup and activate handlers).
    [if (request.headers)] is true for any array, the empty one included. *)
Definition onMessage (isReady : bool) (request : BgRequest) (st : BgState)
  : BgResponse * BgState :=
  if negb isReady && negb (String.eqb (action request) "ping")
  then (bg_err "Background script not ready", st)
  else if String.eqb (action request) "ping"
  then (mkBgResp true None (Some "ready") None, st)
  else if String.eqb (action request) "updateTables"
  then (bg_ok, st)
  else if String.eqb (action request) "applyHeaders"
  then match req_headers request with
       | Some headers =>
           let '(r, st') := Background.applyHeaders headers st in (of_response r, st')
       | None => (bg_err "缺少请求头数据", st)
       end
  else if String.eqb (action request) "clearHeaders"
  then match clearNetworkRules (dynamicRules st) with
       | Some rules => (bg_ok, mkBg [] rules)
       | None => (bg_err "clearNetworkRules rejected", mkBg [] (dynamicRules st))
       end
  else if String.eqb (action request) "getHeaders"
  then (mkBgResp true None None (Some (customHeaders st)), st)
  else (bg_err "未知操作", st).

End Worker.

(** ** Request headers: the popup (useChromeAPI.ts) and the basic content script *)
Module HeaderFlow.
Import Background Worker.

(** [deleteHeader(id)]: [headers.filter(h => h.id !== id)] *)
Definition deleteHeader (id : string) (headers : list RequestHeader) : list RequestHeader :=
  filter (fun h => negb (String.eqb (h_id h) id)) headers.

(** [toggleHeader(id)]: [headers.map(h => h.id === id ? {...h, enabled: !h.enabled} : h)] *)
Definition toggleHeader (id : string) (headers : list RequestHeader) : list RequestHeader :=
  map (fun h => if String.eqb (h_id h) id
                then mkHeader (h_id h) (h_name h) (h_value h) (negb (h_enabled h))
                else h) headers.

(** The local part of the popup's [clearHeaders]: every header disabled. *)
Definition popup_clearHeaders (headers : list RequestHeader) : list RequestHeader :=
  map (fun h => mkHeader (h_id h) (h_name h) (h_value h) false) headers.

(** The popup's [applyHeaders]: the headers it sends to the page, [None]
    when none is enabled and no message goes out. *)
Definition popup_applyHeaders (headers : list RequestHeader) : option (list RequestHeader) :=
  match filter h_enabled headers with
  | [] => None
  | enabledHeaders => Some enabledHeaders
  end.

(** [response?.error || fallback] *)
Definition error_or (e : option string) (fallback : string) : string :=
  match e with
  | Some s => if String.eqb s "" then fallback else s
  | None => fallback
  end.

(** [applyHeaders(headers)] of the basic content script, CopyTools.tsx
    lines 1445-1470, its message answered by the worker.  Result: the
    answer, the new [customHeaders] of the content script and the worker
    state. *)
Definition applyHeaders (isReady : bool) (headers : list RequestHeader) (bg : BgState)
  : ChromeResponse * list RequestHeader * BgState :=
  let customHeaders := filter h_enabled headers in
  let '(response, bg') := onMessage isReady (mkReq "applyHeaders" (Some customHeaders)) bg in
  if br_success response then (ok_resp, customHeaders, bg')
  else (err_resp (error_or (br_error response) "应用请求头失败"), customHeaders, bg').

(** [clearHeaders()] of the basic content script, lines 1473-1497. *)
Definition clearHeaders (isReady : bool) (bg : BgState)
  : ChromeResponse * list RequestHeader * BgState :=
  let '(response, bg') := onMessage isReady (mkReq "clearHeaders" None) bg in
  if br_success response then (ok_resp, [], bg')
  else (err_resp (error_or (br_error response) "清除请求头失败"), [], bg').

End HeaderFlow.

(** ** Strings as JavaScript sees them: sequences of UTF-16 code units *)
Module JsStr.

Definition JsString := list N.

(** An ASCII string as code units. *)
Definition of_ascii (s : string) : JsString :=
  map (fun a => N.of_nat (nat_of_ascii a)) (list_ascii_of_string s).

(** The WhiteSpace and LineTerminator code points [String.prototype.trim]
    removes. *)
Definition is_space (u : N) : bool :=
  existsb (N.eqb u)
    [9; 10; 11; 12; 13; 32; 160; 5760; 8192; 8193; 8194; 8195; 8196; 8197;
     8198; 8199; 8200; 8201; 8202; 8232; 8233; 8239; 8287; 12288; 65279]%N.

Fixpoint drop_space (s : JsString) : JsString :=
  match s with
  | u :: s' => if is_space u then drop_space s' else s
  | [] => []
  end.

(** [s.trim()] *)
Definition trim (s : JsString) : JsString := rev (drop_space (rev (drop_space s))).

(** [a.join(sep)] *)
Fixpoint join (sep : JsString) (l : list JsString) : JsString :=
  match l with
  | [] => []
  | [x] => x
  | x :: l' => (x ++ sep ++ join sep l')%list
  end.

Definition eqb (a b : JsString) : bool :=
  if list_eq_dec N.eq_dec a b then true else false.

End JsStr.

(** ** The popup's table list (part_003) *)
Module TableTools.
Import JsStr.

(** A [Set<number>] as the list of its elements in insertion order. *)
Definition set_has (s : list Z) (x : Z) : bool := existsb (Z.eqb x) s.
Definition set_add (x : Z) (s : list Z) : list Z :=
  if set_has s x then s else (s ++ [x])%list.
Definition set_delete (x : Z) (s : list Z) : list Z :=
  filter (fun y => negb (Z.eqb y x)) s.

(** [toggleTableSelection(tableId)], lines 141-151. *)
Definition toggleTableSelection (tableId : Z) (prev : list Z) : list Z :=
  if set_has prev tableId then set_delete tableId prev else set_add tableId prev.

(** [selectAllTables], lines 153-155, for a list of [n] tables; the
    message then carries [Array.from(selectedTables)]. *)
Definition selectAllTables (n : nat) : list Z := map Z.of_nat (seq 0 n).

(** ["无预览内容"] *)
Definition no_preview : JsString := [26080; 39044; 35272; 20869; 23481]%N.

(** [formatTablePreview(preview)], lines 162-171. *)
Definition formatTablePreview (preview : JsString) : JsString :=
  match preview with
  | [] => no_preview
  | _ => if Nat.ltb 100 (List.length preview)
         then (firstn 100 preview ++ of_ascii "...")%list
         else preview
  end.

End TableTools.

(** ** The table preview of the enhanced content script (lines 358-420) *)
Module Preview.
Import JsStr.

(** A cell as [getTablePreview] reads it: [textContent], the number of
    [input, select, textarea] descendants and [innerHTML]. *)
Record PCell := mkPCell {
  pc_textContent : JsString;
  pc_inputs : nat;
  pc_innerHTML : JsString
}.

(** ["[编码问题]"], ["[HTML内容]"], ["个输入控件]"] *)
Definition encoding_marker : JsString := [91; 32534; 30721; 38382; 39064; 93]%N.
Definition html_marker : JsString := [91; 72; 84; 77; 76; 20869; 23481; 93]%N.
Definition inputs_suffix : JsString := [20010; 36755; 20837; 25511; 20214; 93]%N.

(** [/[一-龥]/.test(s)] and [/[^\x00-\x7F]/.test(s)] *)
Definition has_cjk (s : JsString) : bool :=
  existsb (fun u => (19968 <=? u)%N && (u <=? 40869)%N) s.
Definition has_non_ascii (s : JsString) : bool :=
  existsb (fun u => (127 <? u)%N) s.

(** The body of the inner loop: the text pushed for one cell, if any. *)
Definition preview_cell (cell : PCell) : option JsString :=
  let cellText0 := trim (pc_textContent cell) in
  let cellText1 :=
    match cellText0 with
    | [] =>
        if Nat.ltb 0 (pc_inputs cell)
        then (91%N :: of_ascii (string_of_nat (pc_inputs cell)) ++ inputs_suffix)%list
        else match trim (pc_innerHTML cell) with
             | [] => []
             | _ => html_marker
             end
    | _ => cellText0
    end in
  match cellText1 with
  | [] => None
  | _ =>
      let cellText2 :=
        if has_cjk cellText1 then cellText1
        else if has_non_ascii cellText1 && Nat.ltb 10 (List.length cellText1)
             then encoding_marker else cellText1 in
      let cellText3 :=
        if Nat.ltb 15 (List.length cellText2)
        then (firstn 15 cellText2 ++ of_ascii "...")%list else cellText2 in
      if eqb cellText3 encoding_marker then None else Some cellText3
  end.

(** The two loops: the first 3 rows, the first [maxCols] cells of each;
    a row contributes when at least one of its cells was pushed. *)
Definition preview_rows (rows : list (list PCell)) : list (list JsString) :=
  let maxCols := Nat.min 5 (match rows with r :: _ => List.length r | [] => 0%nat end) in
  flat_map (fun row =>
              match flat_map (fun c => match preview_cell c with
                                       | Some t => [t] | None => [] end)
                             (firstn maxCols row) with
              | [] => []
              | rowCells => [rowCells]
              end)
           (firstn 3 rows).

(** ["无有效内容"], ["未命名表格"] *)
Definition no_content : JsString := [26080; 26377; 25928; 20869; 23481]%N.
Definition unnamed_table : JsString := [26410; 21629; 21517; 34920; 26684]%N.

(** [className.split(' ')[0]] *)
Fixpoint first_word (s : JsString) : JsString :=
  match s with
  | u :: s' => if N.eqb u 32 then [] else u :: first_word s'
  | [] => []
  end.

(** [getTablePreview(table)] for a table with the given [id], [className]
    and rows. *)
Definition getTablePreview (id className : JsString) (rows : list (list PCell)) : JsString :=
  let cells := map (join (of_ascii " | ")) (preview_rows rows) in
  let preview := match cells with [] => no_content | _ => join (of_ascii " | ") cells end in
  let location :=
    match id with
    | _ :: _ => 35%N :: id
    | [] => match className with
            | _ :: _ => 46%N :: first_word className
            | [] => unnamed_table
            end
    end in
  (location ++ of_ascii ": " ++ preview)%list.

End Preview.

(** ** Timers: debounce and throttle *)
Module Timing.

(** [debounce(func, wait, immediate)] of the enhanced content script
    (lines 112-125), run against calls at the given times (milliseconds,
    in order); [timeout] is the deadline of the pending timer.  A timer
    due at or before the time of the next call runs first.  Result: the
    times at which [func] runs.  The [debounce] of utils.ts is the case
    [immediate = false]: it clears and re-arms the timer on every call. *)
Fixpoint debounce_run (wait : nat) (immediate : bool) (timeout : option nat)
         (calls : list nat) : list nat :=
  match calls with
  | [] =>
      match timeout with
      | Some d => if immediate then [] else [d]
      | None => []
      end
  | t :: rest =>
      let '(fired, timeout1) :=
        match timeout with
        | Some d => if Nat.leb d t
                    then ((if immediate then [] else [d]), None)
                    else ([], timeout)
        | None => ([], None)
        end in
      let callNow := immediate && match timeout1 with None => true | Some _ => false end in
      (fired ++ (if callNow then [t] else []) ++
             debounce_run wait immediate (Some (t + wait)%nat) rest)%list
  end.

(** [throttle(func, limit)] of utils.ts: after a run, [inThrottle] stays
    set until a timer [limit] ms later; [until] is that timer's deadline
    (a call at the deadline sees the timer already run). *)
Fixpoint throttle_run (limit : nat) (until : option nat) (calls : list nat) : list nat :=
  match calls with
  | [] => []
  | t :: rest =>
      let inThrottle := match until with Some d => Nat.ltb t d | None => false end in
      if inThrottle then throttle_run limit until rest
      else t :: throttle_run limit (Some (t + limit)%nat) rest
  end.

End Timing.

(** * Properties *)

(** ** Table validation *)

(** A visible 100x100 table whose first row is empty and whose second row
    holds the cell "x". *)
Definition table_empty_first_row : TableEl :=
  mkTable 1 true false "table" "visible" [[]; [mkCell "x" "x"]] false 100 100
          "<table><tr></tr><tr><td>x</td></tr></table>".

(** A visible 100x100 one-cell table inside a [.ui-datepicker] widget. *)
Definition datepicker_table : TableEl :=
  mkTable 2 true false "table" "visible" [[mkCell "1" "1"]] true 100 100
          "<table><tr><td>1</td></tr></table>".

(** Relaxed mode does accept every table strict mode accepts whose first
    row has a cell. *)
Lemma strict_implies_relaxed_first_row (t : TableEl) :
  opt_ge (first_row_cells (tbl_rows t)) 1 = true ->
  Enhanced.isValidTable t false = true -> Enhanced.isValidTable t true = true.
Proof.
  intros Hrow. unfold Enhanced.isValidTable.
  destruct (tbl_rows t) as [|[|c cs] rs]; [discriminate..|]. simpl.
  repeat match goal with
         | |- context [if ?b then _ else _] => destruct b
         end; simpl; congruence.
Qed.

(** C1 (code_bug).  Relaxed mode is meant to be the looser policy, yet
    [isValidTable] in relaxed mode rejects a table that strict mode
    accepts: a table whose first row has no cell but whose second row has
    content.  On the candidate list made of that table, [findTables false]
    returns one descriptor and [findTables true] none. *)
Theorem C1_relaxed_drops_strict_table :
  Enhanced.isValidTable table_empty_first_row false = true /\
  Enhanced.isValidTable table_empty_first_row true = false /\
  List.length (snd (Enhanced.findTables false [table_empty_first_row] [] [])) = 1%nat /\
  List.length (snd (Enhanced.findTables true [table_empty_first_row] [] [])) = 0%nat.
Proof. vm_compute. repeat split. Qed.

(** C4 (counterexample).  In relaxed mode a table inside a date-picker
    widget is accepted. *)
Lemma C4_datepicker_accepted_relaxed :
  tbl_in_datepicker datepicker_table = true /\
  Enhanced.isValidTable datepicker_table true = true.
Proof. vm_compute. split; reflexivity. Qed.

(** C4 (amended).  In relaxed mode [isValidTable] applies no denylist: a
    table is accepted exactly when [table.rows] is defined and either the
    style/geometry reads throw (fail-open) or it is not [display:none] /
    [visibility:hidden], its first row has at least one cell and its
    bounding box is at least 10 wide and 5 high; whether it sits in a
    date-picker plays no role. *)
Theorem C4_relaxed_acceptance (t : TableEl) :
  Enhanced.isValidTable t true =
  tbl_has_rows t &&
  (tbl_throws t ||
   negb (String.eqb (tbl_display t) "none" || String.eqb (tbl_visibility t) "hidden") &&
   opt_ge (first_row_cells (tbl_rows t)) 1 &&
   negb (Qltb (tbl_width t) 10 || Qltb (tbl_height t) 5)).
Proof.
  unfold Enhanced.isValidTable.
  destruct (tbl_has_rows t), (tbl_throws t), (String.eqb (tbl_display t) "none"),
    (String.eqb (tbl_visibility t) "hidden"), (Qltb (tbl_width t) 10),
    (Qltb (tbl_height t) 5), (tbl_rows t) as [|[|c cs] rs]; reflexivity.
Qed.

(** ** Copy protection *)

(** A page rule [.no-user-select { user-select: none; }]. *)
Definition no_select_rule : CSSRule :=
  mkRule 0 true ".no-user-select" [("user-select", "none")].

Definition protected_doc : StyleDoc :=
  mkStyleDoc [mkSheet true [no_select_rule]] [] [].

Definition basic_twice (s : BasicProtection.ProtState) : BasicProtection.ProtState :=
  snd (BasicProtection.toggleCopyProtection
         (snd (BasicProtection.toggleCopyProtection s))).

Definition enhanced_twice (st : bool * StyleDoc) : bool * StyleDoc :=
  snd (EnhancedProtection.toggleCopyProtection
         (snd (EnhancedProtection.toggleCopyProtection st))).

(** In the basic script, [toggle(); toggle()] from the enabled state does
    remove the injected override style: no [<style>] left carries its
    signature. *)
Lemma basic_toggle_twice_no_override (s : BasicProtection.ProtState) :
  BasicProtection.copyProtectionDisabled s = false ->
  Forall (fun t => includes t "user-select: auto" = false)
         (styleElements (BasicProtection.doc (basic_twice s))).
Proof.
  intros Hoff. unfold basic_twice, BasicProtection.toggleCopyProtection.
  rewrite Hoff. unfold BasicProtection.disableCopyProtection.
  destruct (BasicProtection.visit_sheets _ _) as [m shs]. simpl.
  apply Forall_forall. intros x Hx. apply filter_In in Hx as [_ Hx].
  now apply negb_true_iff.
Qed.

(** C2 (code_bug).  [toggle(); toggle()] does not restore the rules the
    disable path changed.  In the basic script the rule
    [.no-user-select { user-select: none; }] is stripped to
    [.no-user-select { }] and the restoring assignment to [rule.cssText] has
    no effect; in the enhanced script the rule is deleted and never put
    back.  The override style is gone in both. *)
Theorem C2_toggle_twice_loses_rule :
  cssText no_select_rule = ".no-user-select { user-select: none; }" /\
  map (fun sh => map cssText (cssRules sh))
      (styleSheets (BasicProtection.doc
                      (basic_twice (BasicProtection.mkProt [] false protected_doc))))
  = [[".no-user-select { }"]] /\
  styleElements (BasicProtection.doc
                   (basic_twice (BasicProtection.mkProt [] false protected_doc))) = [] /\
  map cssRules (styleSheets (snd (enhanced_twice (false, protected_doc)))) = [[]] /\
  styleElements (snd (enhanced_twice (false, protected_doc))) = [].
Proof. vm_compute. repeat split. Qed.

(** ** Header rules *)

Lemma nodupb_seq (n a : nat) : Background.nodupb (seq a n) = true.
Proof.
  revert a. induction n as [|n IH]; intros a; simpl; [reflexivity|].
  rewrite IH, andb_true_r. apply negb_true_iff.
  destruct (existsb (Nat.eqb a) (seq (S a) n)) eqn:E; [|reflexivity].
  apply existsb_exists in E as [x [Hx Heq]].
  apply in_seq in Hx. apply Nat.eqb_eq in Heq. lia.
Qed.

Lemma build_rules_from (hs : list Background.RequestHeader) (k : nat) :
  map Background.dr_id
      (map (fun '(index, h) => Background.header_rule index h)
           (combine (seq k (List.length hs)) hs)) = seq (S k) (List.length hs).
Proof.
  revert k. induction hs as [|h hs IH]; intros k; simpl; [reflexivity|].
  f_equal. apply IH.
Qed.

Lemma build_rules_ids (hs : list Background.RequestHeader) :
  map Background.dr_id (Background.build_rules hs) = seq 1 (List.length hs).
Proof. apply build_rules_from. Qed.

Lemma build_rules_headers (hs : list Background.RequestHeader) :
  map Background.dr_header (Background.build_rules hs) = map Background.h_name hs.
Proof.
  unfold Background.build_rules. generalize 0%nat.
  induction hs as [|h hs IH]; intros k; simpl; [reflexivity|]. f_equal. apply IH.
Qed.

Lemma filter_all_false {A} (f : A -> bool) (l : list A) :
  (forall x, In x l -> f x = false) -> filter f l = [].
Proof.
  induction l as [|a l IH]; intros H; simpl; [reflexivity|].
  rewrite (H a (or_introl eq_refl)). apply IH. intros x Hx. apply H. now right.
Qed.

(** [clearNetworkRules] always leaves no rule. *)
Lemma clearNetworkRules_empty (installed : list Background.DynRule) :
  Background.clearNetworkRules installed = Some [].
Proof.
  unfold Background.clearNetworkRules, Background.getDynamicRules.
  destruct (map Background.dr_id installed) as [|n ns] eqn:Em.
  - apply map_eq_nil in Em. now subst.
  - unfold Background.updateDynamicRules.
    replace (filter _ installed) with (@nil Background.DynRule); [reflexivity|].
    symmetry. apply filter_all_false. intros x Hx.
    apply negb_false_iff, existsb_exists. exists (Background.dr_id x).
    split; [rewrite <- Em; now apply in_map | apply Nat.eqb_refl].
Qed.

(** The platform accepts the rules built for [hs]: every header name is a
    token and no value holds NUL, CR or LF. *)
Definition headers_accepted (hs : list Background.RequestHeader) : bool :=
  forallb (fun h => Background.valid_header_name (Background.h_name h) &&
                    Background.valid_header_value (Background.h_value h)) hs.

Lemma forallb_build_rules (hs : list Background.RequestHeader) :
  forallb Background.rule_valid (Background.build_rules hs) = headers_accepted hs.
Proof.
  unfold Background.build_rules, headers_accepted. generalize 0%nat.
  induction hs as [|h hs IH]; intros k; simpl; [reflexivity|]. f_equal. apply IH.
Qed.

(** [updateNetworkRules] always clears every installed rule first; the new
    rules are then installed, or, when the platform rejects them, none. *)
Lemma updateNetworkRules_result (hs : list Background.RequestHeader)
      (installed : list Background.DynRule) :
  Background.updateNetworkRules hs installed =
  if headers_accepted hs then (true, Background.build_rules hs) else (false, []).
Proof.
  unfold Background.updateNetworkRules. rewrite clearNetworkRules_empty.
  destruct hs as [|h hs'] eqn:E; [reflexivity|]. rewrite <- E.
  unfold Background.updateDynamicRules.
  replace (filter _ []) with (@nil Background.DynRule) by reflexivity.
  rewrite app_nil_l, forallb_build_rules, build_rules_ids, nodupb_seq, andb_true_r.
  destruct (headers_accepted hs); reflexivity.
Qed.

(** C3 (counterexample).  A header name with a space is not a token: the
    platform rejects the rule, so [applyHeaders] of one enabled header
    answers an error and leaves no rule installed, the rule that was there
    before included; the claim's rule with id 1 is missing. *)
Lemma C3_invalid_name_no_rules :
  let hs := [Background.mkHeader "h1" "X Foo" "1" true] in
  let st := Background.mkBg [] [Background.header_rule 0 (Background.mkHeader "h0" "X-Old" "v" true)] in
  Background.applyHeaders hs st = (err_resp "updateDynamicRules rejected", Background.mkBg hs []) /\
  Background.applyHeaders hs (snd (Background.applyHeaders hs st)) =
    (err_resp "updateDynamicRules rejected", Background.mkBg hs []) /\
  map Background.dr_id (Background.dynamicRules (snd (Background.applyHeaders hs st))) <>
    seq 1 (List.length hs).
Proof. vm_compute. split; [reflexivity|split; [reflexivity|discriminate]]. Qed.

(** C3 (amended).  Applying a header list a second time gives the same
    answer and leaves the stored headers and the installed rules as the
    first application left them, since every call first removes all
    installed rules.  When the platform accepts the rules they are one per
    header, with ids 1..N in header order, each setting its header;
    otherwise the call answers an error and no rule is installed. *)
Theorem C3_applyHeaders_idempotent (hs : list Background.RequestHeader)
        (st : Background.BgState) :
  let '(r1, st1) := Background.applyHeaders hs st in
  Background.applyHeaders hs st1 = (r1, st1) /\
  Background.customHeaders st1 = hs /\
  (if headers_accepted hs
   then r1 = ok_resp /\
        Background.dynamicRules st1 = Background.build_rules hs /\
        map Background.dr_id (Background.dynamicRules st1) = seq 1 (List.length hs) /\
        map Background.dr_header (Background.dynamicRules st1) = map Background.h_name hs
   else r1 = err_resp "updateDynamicRules rejected" /\ Background.dynamicRules st1 = []).
Proof.
  unfold Background.applyHeaders. rewrite !updateNetworkRules_result.
  destruct (headers_accepted hs) eqn:E; simpl; rewrite updateNetworkRules_result, E.
  - rewrite build_rules_ids, build_rules_headers. repeat split.
  - repeat split.
Qed.

(** ** Clipboard export *)

(** C5.  For an id outside the candidate range both versions of the
    single-table export answer [{success: false}] with a non-empty error
    and leave the page (body children and clipboard) as it was. *)
Theorem C5_invalid_id_no_effect (env : ClipEnv) (foundTables : list TableEl)
        (tableId : Z) (p : Page)
        (Hout : (tableId < 0 \/ Z.of_nat (List.length foundTables) <= tableId)%Z) :
  (exists e, Enhanced.copySingleTableToClipboard env foundTables tableId p
             = (err_resp e, p) /\ e <> "") /\
  (exists e, Basic.copySingleTableToClipboard env foundTables tableId p
             = (err_resp e, p) /\ e <> "").
Proof.
  assert (Hb : ((tableId <? 0)%Z || (Z.of_nat (List.length foundTables) <=? tableId)%Z)
               = true).
  { apply orb_true_iff. destruct Hout as [H|H]; [left; now apply Z.ltb_lt
                                               | right; now apply Z.leb_le]. }
  unfold Enhanced.copySingleTableToClipboard, Basic.copySingleTableToClipboard.
  rewrite Hb. split; eexists; split; (reflexivity || discriminate).
Qed.

Lemma C5_witness :
  ((-1 < 0)%Z \/ (Z.of_nat (List.length ([] : list TableEl)) <= -1)%Z) /\
  ((exists e, Enhanced.copySingleTableToClipboard (mkClipEnv true true ExecTrue) []
                (-1) (mkPage [NPage 0] "") = (err_resp e, mkPage [NPage 0] "") /\ e <> "") /\
   (exists e, Basic.copySingleTableToClipboard (mkClipEnv true true ExecTrue) []
                (-1) (mkPage [NPage 0] "") = (err_resp e, mkPage [NPage 0] "") /\ e <> "")).
Proof.
  split; [left; reflexivity|].
  apply (C5_invalid_id_no_effect (mkClipEnv true true ExecTrue) [] (-1) (mkPage [NPage 0] "")).
  left; reflexivity.
Defined.

(** ** Detection loop *)

Definition det_init : Detection.DetState := Detection.mkDet 0 0.

(** The first 20 scans of a page where no table ever appears. *)
Definition twenty_empty_scans : list (option Q) :=
  snd (Detection.scans det_init (repeat (0%nat, true) 20)).

(** C6 (counterexample).  Starting from the initial state, twenty scans
    that find no table: the first fourteen schedule retries after 2000,
    3000, 4500, 6750 and then 10000 ms; from the fifteenth on no retry is
    scheduled, and the scans triggered later (by a mutation, a visibility
    change or the poll) do not restart it. *)
Lemma C6_no_retry_after_cap :
  map (option_map (fun q => Qred q)) twenty_empty_scans =
  map (option_map (fun q => Qred q))
    (app [Some 2000; Some 3000; Some 4500; Some 6750]%Q
         (app (repeat (Some 10000%Q) 10) (repeat None 6))).
Proof. vm_compute. reflexivity. Qed.

Lemma scan_begin_attempts (st : Detection.DetState) (count : nat) :
  Detection.detectionAttempts (fst (Detection.scan_begin st count)) =
  Detection.detectionAttempts st.
Proof.
  unfold Detection.scan_begin.
  destruct (_ || _); reflexivity.
Qed.

Lemma scan_end_capped (st : Detection.DetState) (count : nat) :
  (14 <= Detection.detectionAttempts st)%nat ->
  snd (Detection.scan_end st count) = None /\
  Detection.detectionAttempts (fst (Detection.scan_end st count)) =
  S (Detection.detectionAttempts st).
Proof.
  intros H. unfold Detection.scan_end. simpl. split; [|reflexivity].
  replace (Nat.ltb (S (Detection.detectionAttempts st)) Detection.MAX_DETECTION_ATTEMPTS)
    with false by (symmetry; apply Nat.ltb_ge; unfold Detection.MAX_DETECTION_ATTEMPTS; lia).
  now rewrite andb_false_r.
Qed.

(** A scan end that schedules a retry. *)
Definition schedules_retry (o : Detection.DetOutput) : bool :=
  match o with
  | Detection.Finished (Some _) => true
  | _ => false
  end.

Lemma run_events_capped (evs : list Detection.DetEvent) : forall st pending,
  (14 <= Detection.detectionAttempts st)%nat ->
  forallb (fun o => negb (schedules_retry o)) (snd (Detection.run_events st pending evs)) = true.
Proof.
  induction evs as [|ev evs IH]; intros st pending H; cbn [Detection.run_events];
    [reflexivity|].
  destruct ev as [count|k].
  - pose proof (scan_begin_attempts st count) as Ha.
    destruct (Detection.scan_begin st count) as [st1 notify]. simpl in Ha.
    destruct notify.
    + specialize (IH st1 (pending ++ [count])%list ltac:(lia)).
      destruct (Detection.run_events st1 (pending ++ [count])%list evs) as [[st2 p2] outs].
      exact IH.
    + pose proof (scan_end_capped st1 count ltac:(lia)) as [Hn He].
      destruct (Detection.scan_end st1 count) as [st2 next]. simpl in Hn, He. subst next.
      specialize (IH st2 pending ltac:(lia)).
      destruct (Detection.run_events st2 pending evs) as [[st3 p3] outs].
      exact IH.
  - destruct (nth_error pending k) as [count|]; [|apply IH; exact H].
    pose proof (scan_end_capped st count H) as [Hn He].
    destruct (Detection.scan_end st count) as [st1 next]. simpl in Hn, He. subst next.
    specialize (IH st1 (Detection.remove_nth k pending) ltac:(lia)).
    destruct (Detection.run_events st1 (Detection.remove_nth k pending) evs)
      as [[st2 p2] outs].
    exact IH.
Qed.

Lemma scans_capped (inputs : list (nat * bool)) : forall st,
  (14 <= Detection.detectionAttempts st)%nat ->
  Forall (fun next => next = None) (snd (Detection.scans st inputs)).
Proof.
  induction inputs as [|[count delivered] rest IH]; intros st Hcap; simpl; [constructor|].
  unfold Detection.performTableDetection.
  pose proof (scan_begin_attempts st count) as Ha.
  destruct (Detection.scan_begin st count) as [st1 notify]. simpl in Ha.
  pose proof (scan_end_capped st1 count ltac:(lia)) as [Hn He].
  destruct (Detection.scan_end st1 count) as [st2 next]. simpl in Hn, He. subst next.
  specialize (IH st2 ltac:(lia)).
  destruct (Detection.scans st2 rest) as [st3 nexts]. simpl.
  constructor; [reflexivity|exact IH].
Qed.

(** C6 (amended).  A scan with zero tables reschedules itself after
    [min(2000 * 1.5^(n-1), 10000)] ms where [n] is the incremented attempt
    counter, as long as [n < 15]: 2000, 3000, 4500 and 6750 ms, then
    10000 ms up to [n = 14].  Once the counter has reached 14 before a
    scan, no scan whatever its trigger ever schedules a retry again,
    whether the scans run one after the other or overlap while their sends
    are pending (the counter only grows; only [initializeTableDetection]
    resets it). *)
Theorem C6_backoff_then_stop :
  (forall st count,
      snd (Detection.scan_end st count) =
      if Nat.eqb count 0 && Nat.ltb (S (Detection.detectionAttempts st)) 15
      then Some (Detection.backoff (S (Detection.detectionAttempts st)))
      else None) /\
  (Detection.backoff 1 == 2000 /\ Detection.backoff 2 == 3000 /\
   Detection.backoff 3 == 4500 /\ Detection.backoff 4 == 6750)%Q /\
  (forall n, (5 <= n < 15)%nat -> (Detection.backoff n == 10000)%Q) /\
  (forall st inputs, (14 <= Detection.detectionAttempts st)%nat ->
     Forall (fun next => next = None) (snd (Detection.scans st inputs))) /\
  (forall st pending evs, (14 <= Detection.detectionAttempts st)%nat ->
     forallb (fun o => negb (schedules_retry o))
             (snd (Detection.run_events st pending evs)) = true).
Proof.
  split; [intros; reflexivity|].
  split; [repeat split; apply Qeq_bool_eq; vm_compute; reflexivity|].
  split.
  - intros n Hn.
    assert (Hall : forallb (fun m => Qeq_bool (Detection.backoff m) 10000) (seq 5 10) = true)
      by (vm_compute; reflexivity).
    rewrite forallb_forall in Hall. apply Qeq_bool_eq, Hall, in_seq. lia.
  - split; [intros st inputs H; apply scans_capped, H|].
    intros st pending evs H. apply run_events_capped, H.
Qed.

(** C7 (code bug).  On a page with two tables, the first scan notifies
    and waits on its send; a second scan that starts before that send
    settles (the 500 ms timer of [initializeTableDetection], while
    [sendMessageWithRetry] waits 1000 ms after a rejected first send)
    finds the same two tables and still notifies, since
    [detectionAttempts] is only incremented after the [await]; run one
    after the other, the second scan does not notify. *)
Theorem C7_overlapping_scans_notify :
  Detection.run_events det_init []
    [Detection.Begin 2; Detection.Begin 2; Detection.Settle 0; Detection.Settle 0] =
  (Detection.mkDet 2 2, [],
   [Detection.Notified 2; Detection.Notified 2;
    Detection.Finished None; Detection.Finished None]) /\
  snd (fst (Detection.performTableDetection
              (fst (fst (Detection.performTableDetection det_init 2 true))) 2 true)) = false.
Proof. split; reflexivity. Qed.

(** Whether [document.execCommand('copy')] returns true. *)
Definition exec_succeeds (env : ClipEnv) : bool :=
  match env_exec env with ExecTrue => true | _ => false end.

(** Both clipboard writes succeed exactly when the Clipboard API write or
    the legacy copy command does, and then the clipboard holds the text. *)
Lemma write_clipboard_success (env : ClipEnv) (text : string) (p : Page) :
  resp_success (fst (Enhanced.write_clipboard env text p)) =
    Some (env_clipboard_api env && env_write_ok env || exec_succeeds env) /\
  resp_success (fst (Basic.write_clipboard env text p)) =
    Some (env_clipboard_api env && env_write_ok env || exec_succeeds env) /\
  (resp_success (fst (Enhanced.write_clipboard env text p)) = Some true ->
   clipboard (snd (Enhanced.write_clipboard env text p)) = text) /\
  (resp_success (fst (Basic.write_clipboard env text p)) = Some true ->
   clipboard (snd (Basic.write_clipboard env text p)) = text).
Proof.
  destruct env as [[] [] [| |msg]]; unfold exec_succeeds;
    repeat split; simpl; try reflexivity; discriminate.
Qed.

Definition env_ok : ClipEnv := mkClipEnv true true ExecTrue.
Definition empty_page : Page := mkPage [] "".

(** C8 (counterexample).  The enhanced script's all-tables export puts the
    bare markup on the clipboard: no index label precedes it. *)
Lemma C8_enhanced_unlabelled :
  Enhanced.copyTablesToClipboard env_ok [datepicker_table] empty_page =
  (ok_resp, mkPage [] "<table><tr><td>1</td></tr></table>").
Proof. vm_compute. reflexivity. Qed.

(** C8 (amended).  Whenever the all-tables export succeeds the candidate
    set was non-empty and the clipboard holds: in the basic script each
    table's markup prefixed by [=== 表格 k ===\n] (k its 1-based position)
    and followed by a newline, joined by newlines ([Basic.all_tables_text]);
    in the enhanced script the bare markups joined by a blank line. *)
Theorem C8_export_payloads (env : ClipEnv) (foundTables : list TableEl) (p : Page) :
  (resp_success (fst (Basic.copyTablesToClipboard env foundTables p)) = Some true ->
   foundTables <> [] /\
   clipboard (snd (Basic.copyTablesToClipboard env foundTables p))
   = Basic.all_tables_text foundTables) /\
  (resp_success (fst (Enhanced.copyTablesToClipboard env foundTables p)) = Some true ->
   foundTables <> [] /\
   clipboard (snd (Enhanced.copyTablesToClipboard env foundTables p))
   = join (String "010" (String "010" "")) (map tbl_outerHTML foundTables)).
Proof.
  unfold Basic.copyTablesToClipboard, Enhanced.copyTablesToClipboard.
  destruct foundTables as [|t ts]; [split; simpl; discriminate|].
  split; intros H; (split; [discriminate|]); now apply write_clipboard_success.
Qed.

Lemma C8_witness :
  (resp_success (fst (Basic.copyTablesToClipboard env_ok [datepicker_table] empty_page))
   = Some true /\
   resp_success (fst (Enhanced.copyTablesToClipboard env_ok [datepicker_table] empty_page))
   = Some true) /\
  clipboard (snd (Basic.copyTablesToClipboard env_ok [datepicker_table] empty_page))
  = Basic.all_tables_text [datepicker_table].
Proof.
  split; [split; reflexivity|].
  apply (proj1 (C8_export_payloads env_ok [datepicker_table] empty_page)).
  reflexivity.
Defined.

(** ** Selected-tables export *)

Lemma in_range_table_at (foundTables : list TableEl) (id : Z) :
  in_range foundTables id = true -> exists t, table_at foundTables id = Some t.
Proof.
  unfold in_range, table_at. intros H. apply andb_true_iff in H as [H1 H2].
  apply Z.leb_le in H1. apply Z.ltb_lt in H2.
  replace (id <? 0)%Z with false by (symmetry; apply Z.ltb_ge; lia).
  destruct (nth_error foundTables (Z.to_nat id)) as [t|] eqn:E; [now exists t|].
  apply nth_error_None in E. lia.
Qed.

Lemma select_tables_nil (foundTables : list TableEl) (ids : list Z) :
  Enhanced.select_tables foundTables ids = [] <->
  existsb (in_range foundTables) ids = false.
Proof.
  unfold Enhanced.select_tables. induction ids as [|id ids IH]; simpl; [tauto|].
  destruct (in_range foundTables id) eqn:Hr; simpl; [|exact IH].
  destruct (in_range_table_at _ _ Hr) as [t Ht]. rewrite Ht. simpl.
  split; discriminate.
Qed.

Lemma concat_cons_nonempty (sep x : string) (xs : list string) :
  x <> "" -> String.concat sep (x :: xs) <> "".
Proof.
  intros Hx. destruct x as [|c x']; [contradiction|].
  destruct xs; simpl; discriminate.
Qed.

Lemma selected_text_in_range (foundTables : list TableEl) (id : Z) :
  in_range foundTables id = true ->
  exists s, Basic.selected_text foundTables id = Some s /\ s <> "".
Proof.
  intros Hr. destruct (in_range_table_at _ _ Hr) as [t Ht].
  unfold in_range in Hr. apply andb_true_iff in Hr as [H1 H2].
  apply Z.leb_le in H1. apply Z.ltb_lt in H2.
  unfold Basic.selected_text.
  replace ((id <? 0)%Z || (Z.of_nat (List.length foundTables) <=? id)%Z) with false
    by (symmetry; apply orb_false_iff; split; [apply Z.ltb_ge | apply Z.leb_gt]; lia).
  rewrite Ht. simpl. eexists; split; [reflexivity|]. unfold Basic.labelled. discriminate.
Qed.

Lemma selected_text_out_of_range (foundTables : list TableEl) (id : Z) :
  in_range foundTables id = false -> Basic.selected_text foundTables id = None.
Proof.
  unfold in_range, Basic.selected_text. intros Hr.
  replace ((id <? 0)%Z || (Z.of_nat (List.length foundTables) <=? id)%Z) with true;
    [reflexivity|].
  symmetry. apply andb_false_iff in Hr. apply orb_true_iff.
  destruct Hr as [H|H]; [left; apply Z.leb_gt in H; apply Z.ltb_lt; lia
                       | right; apply Z.ltb_ge in H; apply Z.leb_le; lia].
Qed.

Lemma basic_selected_text_empty (foundTables : list TableEl) (ids : list Z) :
  String.eqb (join Basic.nl (Basic.filter_Boolean
                                (map (Basic.selected_text foundTables) ids))) ""
  = negb (existsb (in_range foundTables) ids).
Proof.
  induction ids as [|id ids IH]; simpl; [reflexivity|].
  destruct (in_range foundTables id) eqn:Hr; simpl.
  - destruct (selected_text_in_range _ _ Hr) as [s [Hs Hne]]. rewrite Hs.
    apply String.eqb_neq in Hne as Hne'. rewrite Hne'.
    apply String.eqb_neq. now apply concat_cons_nonempty.
  - now rewrite (selected_text_out_of_range _ _ Hr).
Qed.

(** C9 (counterexample).  With no Clipboard API and a failing legacy copy
    command, a selection holding the valid id 0 and the invalid id 5 gets
    an error from both versions. *)
Lemma C9_valid_selection_can_fail :
  Enhanced.copySelectedTablesToClipboard (mkClipEnv false false ExecFalse)
    [datepicker_table] [0; 5]%Z empty_page =
  (err_resp "复制命令执行失败，请确保页面处于活动状态", empty_page) /\
  Basic.copySelectedTablesToClipboard (mkClipEnv false false ExecFalse)
    [datepicker_table] [0; 5]%Z empty_page =
  (mkResp None (Some false) (Some "execCommand复制失败") None, empty_page).
Proof. vm_compute. split; reflexivity. Qed.

(** C9 (amended).  The selected-tables export drops the ids out of range.
    If the list is empty or none of its ids is in range it answers an
    error and leaves the page untouched; otherwise its answer is the
    clipboard write of the remaining tables' payload, which succeeds
    exactly when the Clipboard API write or the legacy copy command
    succeeds. *)
Theorem C9_selected_result (env : ClipEnv) (foundTables : list TableEl)
        (ids : list Z) (p : Page) :
  Enhanced.copySelectedTablesToClipboard env foundTables ids p =
    (if existsb (in_range foundTables) ids
     then Enhanced.write_clipboard env
            (join (String "010" (String "010" ""))
                  (map tbl_outerHTML (Enhanced.select_tables foundTables ids))) p
     else (err_resp (match ids with [] => "没有选中的表格" | _ => "选中的表格ID无效" end), p)) /\
  Basic.copySelectedTablesToClipboard env foundTables ids p =
    (if existsb (in_range foundTables) ids
     then Basic.write_clipboard env
            (join Basic.nl (Basic.filter_Boolean
                              (map (Basic.selected_text foundTables) ids))) p
     else (err_resp (match ids with [] => "没有选择表格" | _ => "没有有效的表格" end), p)) /\
  (forall text,
     resp_success (fst (Enhanced.write_clipboard env text p)) =
       Some (env_clipboard_api env && env_write_ok env || exec_succeeds env) /\
     resp_success (fst (Basic.write_clipboard env text p)) =
       Some (env_clipboard_api env && env_write_ok env || exec_succeeds env)).
Proof.
  split; [|split].
  - unfold Enhanced.copySelectedTablesToClipboard.
    destruct ids as [|id ids']; [reflexivity|].
    destruct (existsb (in_range foundTables) (id :: ids')) eqn:E.
    + destruct (Enhanced.select_tables foundTables (id :: ids')) eqn:S.
      * apply select_tables_nil in S. congruence.
      * reflexivity.
    + apply select_tables_nil in E. now rewrite E.
  - unfold Basic.copySelectedTablesToClipboard.
    destruct ids as [|id ids']; [reflexivity|].
    rewrite basic_selected_text_empty.
    destruct (existsb (in_range foundTables) (id :: ids')); reflexivity.
  - intros text. split; apply write_clipboard_success.
Qed.

(** ** Highlight *)

Definition no_outline : Outlines := fun _ => "".

(** C10 (counterexample).  The handler gives the same answer
    [{success: true}] when [tableId] is absent as when it is present. *)
Lemma C10_absent_id_same_response :
  fst (Enhanced.handle_highlightTable [datepicker_table] None no_outline) = ok_resp /\
  fst (Enhanced.handle_highlightTable [datepicker_table] (Some 0%Z) no_outline) = ok_resp /\
  fst (Basic.handle_highlightTable [datepicker_table] None
         (Basic.mkHL no_outline None)) = ok_resp /\
  fst (Basic.handle_highlightTable [datepicker_table] (Some 0%Z)
         (Basic.mkHL no_outline None)) = ok_resp.
Proof. repeat split. Qed.

(** C10 (amended).  The highlightTable handler answers [{success: true}]
    to every request, whether [tableId] is in range, out of range or
    absent; for an out-of-range id it only clears the previous highlight
    and highlights no table. *)
Theorem C10_highlight_always_success (foundTables : list TableEl)
        (tableId : option Z) (o : Outlines) (s : Basic.HighlightState) :
  fst (Enhanced.handle_highlightTable foundTables tableId o) = ok_resp /\
  fst (Basic.handle_highlightTable foundTables tableId s) = ok_resp /\
  (forall id, in_range foundTables id = false ->
     snd (Enhanced.handle_highlightTable foundTables (Some id) o)
       = Enhanced.clearHighlight foundTables o /\
     snd (Basic.handle_highlightTable foundTables (Some id) s) = Basic.clearHighlight s /\
     Basic.previouslyHighlighted (Basic.clearHighlight s) = None).
Proof.
  split; [reflexivity|]. split; [reflexivity|].
  intros id Hr. split; [|split].
  - simpl. unfold Enhanced.highlightTable. unfold in_range in Hr. now rewrite Hr.
  - simpl. unfold Basic.highlightTable.
    replace (table_at foundTables id) with (@None TableEl); [reflexivity|].
    unfold in_range, table_at in *. symmetry.
    destruct (id <? 0)%Z eqn:Hn; [reflexivity|].
    apply nth_error_None. apply Z.ltb_ge in Hn.
    apply andb_false_iff in Hr as [H|H]; [apply Z.leb_gt in H; lia|].
    apply Z.ltb_ge in H. lia.
  - destruct s as [o' [k|]]; reflexivity.
Qed.

Lemma C10_witness :
  in_range [datepicker_table] 3%Z = false /\
  snd (Basic.handle_highlightTable [datepicker_table] (Some 3%Z)
         (Basic.mkHL no_outline (Some 2%nat)))
  = Basic.clearHighlight (Basic.mkHL no_outline (Some 2%nat)).
Proof.
  split; [reflexivity|].
  apply (proj1 (proj2 (proj2 (proj2 (C10_highlight_always_success [datepicker_table] None
                                       no_outline (Basic.mkHL no_outline (Some 2%nat))))
                         3%Z eq_refl))).
Defined.


(** ** Further properties of the content scripts, the worker and the popup *)

(** A visible 100x100 table with the given key and rows. *)
Definition sample_table (k : nat) (rows : list Row) : TableEl :=
  mkTable k true false "table" "visible" rows false 100 100 "<table></table>".

(** *** Collecting and describing the tables *)

Lemma push_unique_inv (ts : list TableEl) : forall processed acc,
  (forall k, In k processed <-> In k (map tbl_key acc)) ->
  NoDup (map tbl_key acc) ->
  let '(p', acc') := Enhanced.push_unique processed acc ts in
  (forall k, In k p' <-> In k (map tbl_key acc')) /\ NoDup (map tbl_key acc') /\
  (forall k, In k (map tbl_key acc) \/ In k (map tbl_key ts) -> In k (map tbl_key acc')).
Proof.
  induction ts as [|t ts IH]; intros processed acc Hp Hn; simpl.
  - split; [exact Hp|split; [exact Hn|]]. intros k [H|[]]; exact H.
  - destruct (existsb (Nat.eqb (tbl_key t)) processed) eqn:E.
    + specialize (IH processed acc Hp Hn).
      destruct (Enhanced.push_unique processed acc ts) as [p' acc'].
      destruct IH as (H1 & H2 & H3). split; [exact H1|split; [exact H2|]].
      intros k [Hk|[Hk|Hk]]; apply H3; auto.
      left. subst k. apply Hp. apply existsb_exists in E as [x [Hx Hx']].
      apply Nat.eqb_eq in Hx'. subst. exact Hx.
    + assert (Hnot : ~ In (tbl_key t) (map tbl_key acc)).
      { intros Hin. apply Hp in Hin.
        assert (existsb (Nat.eqb (tbl_key t)) processed = true) as Ht
          by (apply existsb_exists; exists (tbl_key t); split; [exact Hin|apply Nat.eqb_refl]).
        congruence. }
      assert (Hp' : forall k, In k (tbl_key t :: processed) <->
                              In k (map tbl_key (acc ++ [t]))).
      { intro k. rewrite map_app. simpl. rewrite in_app_iff, Hp. simpl. tauto. }
      assert (Hn' : NoDup (map tbl_key (acc ++ [t]))).
      { rewrite map_app. simpl.
        apply (Permutation_NoDup (Permutation_cons_append (map tbl_key acc) (tbl_key t))).
        now constructor. }
      specialize (IH (tbl_key t :: processed) (acc ++ [t])%list Hp' Hn').
      destruct (Enhanced.push_unique (tbl_key t :: processed) (acc ++ [t])%list ts)
        as [p' acc'].
      destruct IH as (H1 & H2 & H3). split; [exact H1|split; [exact H2|]].
      intros k Hk. apply H3. rewrite map_app, in_app_iff. simpl.
      destruct Hk as [Hk|[Hk|Hk]]; auto.
Qed.

(** The table collection of [findTables] (lines 424-475) keeps one copy of
    each table: no key occurs twice in the result, and the key of every
    candidate, from the main document, the iframes or the grid containers,
    occurs in it. *)
Theorem collectTables_dedup (mainTables iframeTables containerTables : list TableEl) :
  let allTables := Enhanced.collectTables mainTables iframeTables containerTables in
  NoDup (map tbl_key allTables) /\
  (forall t, In t (mainTables ++ iframeTables ++ containerTables)%list ->
             In (tbl_key t) (map tbl_key allTables)).
Proof.
  unfold Enhanced.collectTables.
  pose proof (push_unique_inv mainTables [] [] (fun k => iff_refl _) (NoDup_nil _)) as H1.
  destruct (Enhanced.push_unique [] [] mainTables) as [p1 a1].
  destruct H1 as (P1 & N1 & K1).
  pose proof (push_unique_inv iframeTables p1 a1 P1 N1) as H2.
  destruct (Enhanced.push_unique p1 a1 iframeTables) as [p2 a2].
  destruct H2 as (P2 & N2 & K2).
  pose proof (push_unique_inv containerTables p2 a2 P2 N2) as H3.
  destruct (Enhanced.push_unique p2 a2 containerTables) as [p3 a3].
  destruct H3 as (P3 & N3 & K3). simpl.
  split; [exact N3|]. intros t Ht.
  apply in_app_iff in Ht as [Ht|Ht]; [|apply in_app_iff in Ht as [Ht|Ht]].
  - apply K3. left. apply K2. left. apply K1. right. now apply in_map.
  - apply K3. left. apply K2. right. now apply in_map.
  - apply K3. right. now apply in_map.
Qed.

Lemma table_at_of_nat (foundTables : list TableEl) (i : nat) :
  table_at foundTables (Z.of_nat i) = nth_error foundTables i.
Proof.
  unfold table_at. rewrite Nat2Z.id.
  destruct (Z.of_nat i <? 0)%Z eqn:E; [apply Z.ltb_lt in E; lia|reflexivity].
Qed.

Lemma infos_of (l : list TableEl) : forall k info,
  In info (map (fun '(index, t) =>
                  let '(r, c) := Enhanced.getTableInfo t in Enhanced.mkInfo index r c)
               (combine (seq k (List.length l)) l)) ->
  exists j t, Enhanced.info_id info = (k + j)%nat /\ nth_error l j = Some t /\
              Enhanced.getTableInfo t = (Enhanced.info_rows info, Enhanced.info_cols info).
Proof.
  induction l as [|x l IH]; intros k info Hin; simpl in Hin; [contradiction|].
  destruct Hin as [Hin|Hin].
  - exists 0%nat, x. subst info. destruct (Enhanced.getTableInfo x) as [r c] eqn:E.
    simpl. rewrite Nat.add_0_r. auto.
  - destruct (IH (S k) info Hin) as (j & t & H1 & H2 & H3).
    exists (S j), t. repeat split; auto. rewrite H1. lia.
Qed.

Lemma infos_ids (l : list TableEl) : forall k,
  map Enhanced.info_id
      (map (fun '(index, t) =>
              let '(r, c) := Enhanced.getTableInfo t in Enhanced.mkInfo index r c)
           (combine (seq k (List.length l)) l)) = seq k (List.length l).
Proof.
  induction l as [|x l IH]; intros k; simpl; [reflexivity|].
  destruct (Enhanced.getTableInfo x) as [r c]. simpl. f_equal. apply IH.
Qed.

(** The descriptors [findTables] returns (lines 477-484) are numbered
    0, 1, ... in the order of [foundTables], every table kept passed
    [isValidTable] in the mode at hand, and the id of each descriptor
    selects, in [foundTables], a table whose row and column counts are
    the ones it reports: the ids the popup sends back address the tables
    it was shown. *)
Theorem findTables_descriptors (relaxedMode : bool)
        (mainTables iframeTables containerTables : list TableEl) :
  let '(foundTables, infos) :=
    Enhanced.findTables relaxedMode mainTables iframeTables containerTables in
  map Enhanced.info_id infos = seq 0 (List.length foundTables) /\
  Forall (fun t => Enhanced.isValidTable t relaxedMode = true) foundTables /\
  (forall info, In info infos ->
     exists t, table_at foundTables (Z.of_nat (Enhanced.info_id info)) = Some t /\
               Enhanced.getTableInfo t = (Enhanced.info_rows info, Enhanced.info_cols info)).
Proof.
  unfold Enhanced.findTables.
  set (found := filter _ _).
  split; [apply infos_ids|split].
  - apply Forall_forall. intros t Ht. unfold found in Ht.
    now apply filter_In in Ht as [_ Ht].
  - intros info Hin. destruct (infos_of found 0 info Hin) as (j & t & H1 & H2 & H3).
    exists t. rewrite H1, table_at_of_nat. simpl. auto.
Qed.

(** *** Table validation *)

(** In both modes of [isValidTable] (lines 269-348), a table with rows
    whose geometry or style read throws is accepted in relaxed mode and
    rejected in strict mode, whatever it contains; and a table whose reads
    do not throw is rejected when its computed style is [display: none] or
    [visibility: hidden]. *)
Theorem isValidTable_throwing_and_hidden (t : TableEl) (relaxedMode : bool)
        (Hrows : tbl_has_rows t = true) :
  (tbl_throws t = true -> Enhanced.isValidTable t relaxedMode = relaxedMode) /\
  (tbl_throws t = false ->
   tbl_display t = "none" \/ tbl_visibility t = "hidden" ->
   Enhanced.isValidTable t relaxedMode = false).
Proof.
  unfold Enhanced.isValidTable. rewrite Hrows. simpl. split.
  - intros H. now rewrite H.
  - intros H [Hd|Hv]; rewrite H.
    + now rewrite Hd.
    + rewrite Hv. now rewrite orb_true_r.
Qed.

Lemma isValidTable_throwing_and_hidden_witness :
  tbl_has_rows (sample_table 1 []) = true /\
  (tbl_throws (sample_table 1 []) = true ->
   Enhanced.isValidTable (sample_table 1 []) true = true) /\
  (tbl_throws (sample_table 1 []) = false ->
   tbl_display (sample_table 1 []) = "none" \/ tbl_visibility (sample_table 1 []) = "hidden" ->
   Enhanced.isValidTable (sample_table 1 []) true = false).
Proof.
  split; [reflexivity|].
  exact (isValidTable_throwing_and_hidden (sample_table 1 []) true eq_refl).
Defined.

(** Strict mode accepts, whatever its cells contain, every table that is
    displayed and visible, has at least two rows and at least two cells in
    its first row, lies outside a date picker and measures at least 10 by
    5 pixels: the structural fallback of step 4 decides, even for a table
    of empty cells. *)
Theorem isValidTable_strict_structural (t : TableEl) (r1 r2 : Row) (rest : list Row)
        (Hrows : tbl_has_rows t = true) (Hthrow : tbl_throws t = false)
        (Hdisp : tbl_display t <> "none") (Hvis : tbl_visibility t <> "hidden")
        (Hshape : tbl_rows t = r1 :: r2 :: rest) (Hcols : (2 <= List.length r1)%nat)
        (Hdp : tbl_in_datepicker t = false)
        (Hw : Qle_bool 10 (tbl_width t) = true) (Hh : Qle_bool 5 (tbl_height t) = true) :
  Enhanced.isValidTable t false = true.
Proof.
  unfold Enhanced.isValidTable, Qltb.
  rewrite Hrows, Hthrow, Hshape, Hdp, Hw, Hh.
  apply String.eqb_neq in Hdisp. apply String.eqb_neq in Hvis.
  rewrite Hdisp, Hvis. simpl.
  destruct (Enhanced.scan_window (r1 :: r2 :: rest)); [reflexivity|].
  destruct r1 as [|a [|b r1']]; simpl in Hcols; [lia|lia|reflexivity].
Qed.

Lemma isValidTable_strict_structural_witness :
  Enhanced.isValidTable
    (sample_table 2 [[mkCell "" ""; mkCell "" ""]; [mkCell "" ""]]) false = true.
Proof.
  apply (isValidTable_strict_structural
           (sample_table 2 [[mkCell "" ""; mkCell "" ""]; [mkCell "" ""]])
           [mkCell "" ""; mkCell "" ""] [mkCell "" ""] []);
    try reflexivity; try discriminate; simpl; lia.
Defined.

(** Relaxed mode accepts every table strict mode accepts, provided the
    first row has a cell: the two policies differ in that direction only on
    tables whose first row is empty. *)
Theorem isValidTable_strict_then_relaxed (t : TableEl) (c : Cell) (cs : Row) (rs : list Row)
        (Hfirst : tbl_rows t = (c :: cs) :: rs)
        (Hstrict : Enhanced.isValidTable t false = true) :
  Enhanced.isValidTable t true = true.
Proof.
  apply strict_implies_relaxed_first_row; [|exact Hstrict].
  rewrite Hfirst. reflexivity.
Qed.

Lemma isValidTable_strict_then_relaxed_witness :
  Enhanced.isValidTable (sample_table 3 [[mkCell "a" ""]]) true = true.
Proof.
  apply (isValidTable_strict_then_relaxed (sample_table 3 [[mkCell "a" ""]])
           (mkCell "a" "") [] []); vm_compute; reflexivity.
Defined.

(** *** Highlighting *)

Lemma enhanced_clearHighlight_at (foundTables : list TableEl) : forall (o : Outlines) k,
  Enhanced.clearHighlight foundTables o k =
  if existsb (Nat.eqb k) (map tbl_key foundTables) then "" else o k.
Proof.
  unfold Enhanced.clearHighlight.
  induction foundTables as [|t ts IH]; intros o k; simpl; [reflexivity|].
  rewrite IH. unfold set_outline.
  destruct (Nat.eqb k (tbl_key t)); destruct (existsb (Nat.eqb k) (map tbl_key ts));
    reflexivity.
Qed.

Lemma table_at_in_range (foundTables : list TableEl) (tableId : Z) (t : TableEl) :
  table_at foundTables tableId = Some t ->
  ((tableId <? 0)%Z || (Z.of_nat (List.length foundTables) <=? tableId)%Z) = false.
Proof.
  unfold table_at. destruct (tableId <? 0)%Z eqn:E1; [discriminate|].
  intros H. apply Z.ltb_ge in E1.
  assert (Z.to_nat tableId < List.length foundTables)%nat
    by (apply nth_error_Some; congruence).
  simpl. apply Z.leb_gt. lia.
Qed.

(** After the enhanced [highlightTable(id)] (lines 488-502) with an id that
    selects a table, that table carries the red outline, every other table
    of [foundTables] has none, and elements outside [foundTables] keep
    theirs. *)
Theorem enhanced_highlight_exact (foundTables : list TableEl) (tableId : Z)
        (t : TableEl) (o : Outlines)
        (Hat : table_at foundTables tableId = Some t) :
  forall k, Enhanced.highlightTable foundTables tableId o k =
    if Nat.eqb k (tbl_key t) then "3px solid #ff6b6b"
    else if existsb (Nat.eqb k) (map tbl_key foundTables) then "" else o k.
Proof.
  intros k. pose proof (table_at_in_range _ _ _ Hat) as Hr.
  apply orb_false_iff in Hr as [H1 H2].
  unfold Enhanced.highlightTable.
  replace ((0 <=? tableId)%Z && (tableId <? Z.of_nat (List.length foundTables))%Z)
    with true by (apply Z.ltb_ge in H1; apply Z.leb_gt in H2;
                  symmetry; apply andb_true_iff; split; [apply Z.leb_le|apply Z.ltb_lt]; lia).
  rewrite Hat. unfold set_outline. rewrite enhanced_clearHighlight_at. reflexivity.
Qed.

Lemma enhanced_highlight_exact_witness :
  table_at [sample_table 7 []; sample_table 8 []] 1 = Some (sample_table 8 []) /\
  Enhanced.highlightTable [sample_table 7 []; sample_table 8 []] 1 (fun _ => "") 7%nat = "".
Proof.
  split; [reflexivity|].
  rewrite (enhanced_highlight_exact [sample_table 7 []; sample_table 8 []] 1
             (sample_table 8 []) (fun _ => "") eq_refl 7%nat).
  reflexivity.
Defined.

(** Successive basic [highlightTable] calls. *)
Fixpoint basic_highlights (foundTables : list TableEl) (ids : list Z)
         (s : Basic.HighlightState) : Basic.HighlightState :=
  match ids with
  | [] => s
  | id :: ids' => basic_highlights foundTables ids' (Basic.highlightTable foundTables id s)
  end.

Definition single_outline (s : Basic.HighlightState) : Prop :=
  forall k, Basic.previouslyHighlighted s <> Some k -> Basic.outlines s k = "".

Lemma basic_highlight_single (foundTables : list TableEl) (id : Z) (s : Basic.HighlightState) :
  single_outline s -> single_outline (Basic.highlightTable foundTables id s).
Proof.
  unfold single_outline, Basic.highlightTable, Basic.clearHighlight.
  destruct s as [o [k0|]]; simpl; intros Hinv;
    destruct (table_at foundTables id) as [t|]; simpl; intros k Hk; unfold set_outline.
  - destruct (Nat.eqb k (tbl_key t)) eqn:E; [apply Nat.eqb_eq in E; subst; congruence|].
    destruct (Nat.eqb k k0) eqn:E0; [reflexivity|].
    apply Hinv. intros Heq. injection Heq as ->. now rewrite Nat.eqb_refl in E0.
  - destruct (Nat.eqb k k0) eqn:E0; [reflexivity|].
    apply Hinv. intros Heq. injection Heq as ->. now rewrite Nat.eqb_refl in E0.
  - destruct (Nat.eqb k (tbl_key t)) eqn:E; [apply Nat.eqb_eq in E; subst; congruence|].
    apply Hinv. discriminate.
  - apply Hinv. exact Hk.
Qed.

(** The basic script outlines at most one table: after any sequence of
    [highlightTable] calls (lines 1125-1141) on a page without outlines,
    every element other than [previouslyHighlighted] has no outline. *)
Theorem basic_at_most_one_outline (foundTables : list TableEl) (ids : list Z) (k : nat)
        (Hk : Basic.previouslyHighlighted
                (basic_highlights foundTables ids (Basic.mkHL (fun _ => "") None)) <> Some k) :
  Basic.outlines (basic_highlights foundTables ids (Basic.mkHL (fun _ => "") None)) k = "".
Proof.
  assert (Hgen : forall ids' s, single_outline s ->
                 single_outline (basic_highlights foundTables ids' s)).
  { induction ids' as [|id ids' IH]; intros s Hs; simpl; [exact Hs|].
    apply IH. now apply basic_highlight_single. }
  apply (Hgen ids (Basic.mkHL (fun _ => "") None)); [intros k' _; reflexivity|exact Hk].
Qed.

Lemma basic_at_most_one_outline_witness :
  Basic.outlines (basic_highlights [sample_table 7 []; sample_table 8 []] [0%Z; 1%Z]
                    (Basic.mkHL (fun _ => "") None)) 7%nat = "".
Proof.
  apply (basic_at_most_one_outline [sample_table 7 []; sample_table 8 []] [0%Z; 1%Z] 7%nat).
  intros H. vm_compute in H. discriminate H.
Defined.
(** *** Clipboard export *)

Lemma basic_write_clipboard_body (env : ClipEnv) (text : string) (p : Page) :
  body (snd (Basic.write_clipboard env text p)) = body p.
Proof.
  unfold Basic.write_clipboard.
  destruct (env_clipboard_api env && env_write_ok env); [reflexivity|].
  destruct (env_exec env); reflexivity.
Qed.

(** The three export functions of the basic script never leave a node in
    the page: whatever the clipboard API and [execCommand] do, the children
    of [document.body] afterwards are the ones before (the temporary
    textarea is removed in a [finally]). *)
Theorem basic_copy_keeps_body (env : ClipEnv) (foundTables : list TableEl)
        (tableId : Z) (selectedIds : list Z) (p : Page) :
  body (snd (Basic.copySingleTableToClipboard env foundTables tableId p)) = body p /\
  body (snd (Basic.copySelectedTablesToClipboard env foundTables selectedIds p)) = body p /\
  body (snd (Basic.copyTablesToClipboard env foundTables p)) = body p.
Proof.
  split; [|split].
  - unfold Basic.copySingleTableToClipboard.
    destruct (_ || _); [reflexivity|].
    destruct (table_at foundTables tableId); [apply basic_write_clipboard_body|reflexivity].
  - unfold Basic.copySelectedTablesToClipboard.
    destruct selectedIds; [reflexivity|].
    destruct (String.eqb _ ""); [reflexivity|apply basic_write_clipboard_body].
  - unfold Basic.copyTablesToClipboard.
    destruct foundTables; [reflexivity|apply basic_write_clipboard_body].
Qed.

(** The enhanced single-table export (lines 573-624) with an id that
    selects a table leaves nodes behind: the temporary button when the
    clipboard API is present and [writeText] rejects, and the textarea
    holding the table's markup when the legacy path is taken and
    [execCommand] throws. *)
Theorem enhanced_copySingle_leftovers (env : ClipEnv) (foundTables : list TableEl)
        (tableId : Z) (t : TableEl) (p : Page)
        (Hat : table_at foundTables tableId = Some t) :
  body (snd (Enhanced.copySingleTableToClipboard env foundTables tableId p)) =
  (body p
   ++ (if env_clipboard_api env && negb (env_write_ok env) then [NButton] else [])
   ++ (if env_clipboard_api env && env_write_ok env then []
       else match env_exec env with
            | ExecThrows _ => [NTextarea (tbl_outerHTML t)]
            | _ => []
            end))%list.
Proof.
  unfold Enhanced.copySingleTableToClipboard.
  rewrite (table_at_in_range _ _ _ Hat), Hat.
  unfold Enhanced.write_clipboard.
  destruct (env_clipboard_api env), (env_write_ok env), (env_exec env); simpl;
    rewrite ?app_nil_r, <- ?app_assoc; reflexivity.
Qed.

Lemma enhanced_copySingle_leftovers_witness :
  body (snd (Enhanced.copySingleTableToClipboard
               (mkClipEnv true false (ExecThrows "denied")) [sample_table 1 []] 0
               (mkPage [] ""))) =
  [NButton; NTextarea "<table></table>"].
Proof.
  rewrite (enhanced_copySingle_leftovers (mkClipEnv true false (ExecThrows "denied"))
             [sample_table 1 []] 0 (sample_table 1 []) (mkPage [] "") eq_refl).
  reflexivity.
Defined.

Lemma in_range_of_nat (foundTables : list TableEl) (i : nat) :
  in_range foundTables (Z.of_nat i) = Nat.ltb i (List.length foundTables).
Proof.
  unfold in_range.
  replace (0 <=? Z.of_nat i)%Z with true by (symmetry; apply Z.leb_le; lia).
  simpl. destruct (Nat.ltb_spec i (List.length foundTables)).
  - apply Z.ltb_lt. lia.
  - apply Z.ltb_ge. lia.
Qed.

Lemma nth_error_snoc_app {A} (pre l : list A) (x : A) :
  nth_error ((pre ++ [x]) ++ l) (List.length pre) = Some x.
Proof.
  rewrite nth_error_app1 by (rewrite length_app; simpl; lia).
  rewrite nth_error_app2 by lia. rewrite Nat.sub_diag. reflexivity.
Qed.

Lemma select_tables_seq (l : list TableEl) : forall pre,
  Enhanced.select_tables (pre ++ l) (map Z.of_nat (seq (List.length pre) (List.length l))) = l.
Proof.
  induction l as [|x l IH]; intros pre; [reflexivity|].
  replace (pre ++ x :: l)%list with ((pre ++ [x]) ++ l)%list
    by (rewrite <- app_assoc; reflexivity).
  unfold Enhanced.select_tables in *. simpl.
  rewrite in_range_of_nat.
  replace (Nat.ltb (List.length pre) (List.length ((pre ++ [x]) ++ l))) with true
    by (symmetry; apply Nat.ltb_lt; rewrite !length_app; simpl; lia).
  simpl. rewrite table_at_of_nat, nth_error_snoc_app. simpl. f_equal.
  specialize (IH (pre ++ [x])%list). rewrite length_app, Nat.add_comm in IH. exact IH.
Qed.

Lemma selected_text_of_nat (foundTables : list TableEl) (i : nat) :
  Basic.selected_text foundTables (Z.of_nat i) =
  option_map (Basic.labelled i) (nth_error foundTables i).
Proof.
  unfold Basic.selected_text. rewrite table_at_of_nat, Nat2Z.id.
  replace (Z.of_nat i <? 0)%Z with false by (symmetry; apply Z.ltb_ge; lia). simpl.
  destruct (Z.of_nat (List.length foundTables) <=? Z.of_nat i)%Z eqn:E; [|reflexivity].
  apply Z.leb_le in E. replace (nth_error foundTables i) with (@None TableEl)
    by (symmetry; apply nth_error_None; lia). reflexivity.
Qed.

Lemma labelled_nonempty (i : nat) (t : TableEl) : String.eqb (Basic.labelled i t) "" = false.
Proof. reflexivity. Qed.

Lemma basic_selected_seq (l : list TableEl) : forall pre,
  Basic.filter_Boolean
    (map (Basic.selected_text (pre ++ l)) (map Z.of_nat (seq (List.length pre) (List.length l)))) =
  map (fun '(index, t) => Basic.labelled index t)
      (combine (seq (List.length pre) (List.length l)) l).
Proof.
  induction l as [|x l IH]; intros pre; [reflexivity|].
  replace (pre ++ x :: l)%list with ((pre ++ [x]) ++ l)%list
    by (rewrite <- app_assoc; reflexivity).
  cbn [map seq combine List.length]. rewrite selected_text_of_nat, nth_error_snoc_app.
  unfold Basic.filter_Boolean in *. cbn [flat_map option_map].
  rewrite labelled_nonempty. cbn [app]. f_equal.
  specialize (IH (pre ++ [x])%list). rewrite length_app, Nat.add_comm in IH. exact IH.
Qed.

(** Selecting every table in the popup ([selectAllTables], part_003 lines
    153-155) and exporting the selection gives, in both content scripts,
    the same answer and the same page as exporting all tables: the same
    payload reaches the clipboard. *)
Theorem select_all_copies_all (env : ClipEnv) (foundTables : list TableEl) (p : Page)
        (Hne : foundTables <> []) :
  Enhanced.copySelectedTablesToClipboard env foundTables
    (TableTools.selectAllTables (List.length foundTables)) p =
  Enhanced.copyTablesToClipboard env foundTables p /\
  Basic.copySelectedTablesToClipboard env foundTables
    (TableTools.selectAllTables (List.length foundTables)) p =
  Basic.copyTablesToClipboard env foundTables p.
Proof.
  destruct foundTables as [|x xs] eqn:Ef; [contradiction|]. rewrite <- Ef.
  assert (Hsel := select_tables_seq foundTables []). simpl in Hsel.
  assert (Hbas := basic_selected_seq foundTables []). simpl in Hbas.
  unfold TableTools.selectAllTables. split.
  - unfold Enhanced.copySelectedTablesToClipboard, Enhanced.copyTablesToClipboard.
    rewrite Hsel, Ef. reflexivity.
  - unfold Basic.copySelectedTablesToClipboard, Basic.copyTablesToClipboard.
    rewrite Hbas. fold (Basic.all_tables_text foundTables).
    replace (String.eqb (Basic.all_tables_text foundTables) "") with false.
    + rewrite Ef. reflexivity.
    + symmetry. apply String.eqb_neq. unfold Basic.all_tables_text, join.
      rewrite Ef. cbn [List.length seq combine map]. apply concat_cons_nonempty.
      apply String.eqb_neq. apply labelled_nonempty.
Qed.

Lemma select_all_copies_all_witness :
  Enhanced.copySelectedTablesToClipboard env_ok [sample_table 1 []; sample_table 2 []]
    (TableTools.selectAllTables 2) (mkPage [] "") =
  Enhanced.copyTablesToClipboard env_ok [sample_table 1 []; sample_table 2 []] (mkPage [] "").
Proof.
  exact (proj1 (select_all_copies_all env_ok [sample_table 1 []; sample_table 2 []]
                  (mkPage [] "") ltac:(discriminate))).
Defined.

(** *** The copy-protection toggle *)

(** [n] successive basic [toggleCopyProtection] calls. *)
Fixpoint basic_toggles (n : nat) (s : BasicProtection.ProtState) : BasicProtection.ProtState :=
  match n with
  | O => s
  | S n' => basic_toggles n' (snd (BasicProtection.toggleCopyProtection s))
  end.

(** The basic toggle (lines 1318-1434) never removes a listener it added:
    after [n] toggles the listeners of the document are the ones before
    followed by one copy of the eleven capturing listeners per disable
    among them, and the flag has flipped [n] times. *)
Theorem basic_toggle_listeners_accumulate (n : nat) (s : BasicProtection.ProtState) :
  listeners (BasicProtection.doc (basic_toggles n s)) =
  (listeners (BasicProtection.doc s) ++
   concat (repeat BasicProtection.added_listeners
             (if BasicProtection.copyProtectionDisabled s then Nat.div2 n
              else Nat.div2 (S n))))%list /\
  BasicProtection.copyProtectionDisabled (basic_toggles n s) =
  xorb (BasicProtection.copyProtectionDisabled s) (Nat.odd n).
Proof.
  revert s. induction n as [|n IH]; intros s.
  - simpl basic_toggles.
    destruct (BasicProtection.copyProtectionDisabled s) eqn:E; simpl;
      rewrite app_nil_r; split; reflexivity.
  - simpl basic_toggles. unfold BasicProtection.toggleCopyProtection.
    destruct (BasicProtection.copyProtectionDisabled s) eqn:Hb.
    + unfold BasicProtection.enableCopyProtection. simpl snd.
      match goal with |- context [basic_toggles n ?s'] => destruct (IH s') as [IH1 IH2] end.
      simpl in IH1, IH2. rewrite IH1, IH2. split; [reflexivity|].
      rewrite Nat.odd_succ, <- Nat.negb_odd. destruct (Nat.odd n); reflexivity.
    + unfold BasicProtection.disableCopyProtection.
      destruct (BasicProtection.visit_sheets _ _) as [m shs]. simpl snd.
      match goal with |- context [basic_toggles n ?s'] => destruct (IH s') as [IH1 IH2] end.
      simpl in IH1, IH2. rewrite IH1, IH2. split.
      * rewrite <- app_assoc. reflexivity.
      * rewrite Nat.odd_succ, <- Nat.negb_odd. destruct (Nat.odd n); reflexivity.
Qed.

Lemma map_set_keys (k : nat) (v : string) (m : BasicProtection.SaveTable) :
  forall k', In k' (map fst (BasicProtection.map_set k v m)) <-> k' = k \/ In k' (map fst m).
Proof.
  induction m as [|[k0 v0] m IH]; intros k'; simpl;
    [split; intros [H|[]]; left; now symmetry|].
  destruct (Nat.eqb k k0) eqn:E; simpl.
  - apply Nat.eqb_eq in E. subst.
    split; [intros [H|H]; [left; now symmetry|right; now right]
           |intros [H|[H|H]]; [left; now symmetry|now left|now right]].
  - rewrite IH. tauto.
Qed.

(** What the disable path does to one rule. *)
Definition basic_rewritten (r : CSSRule) : CSSRule :=
  if is_style_rule r && BasicProtection.selector_matches (selectorText r)
  then BasicProtection.strip r else r.

Lemma visit_rules_spec (rs : list CSSRule) : forall m,
  snd (BasicProtection.visit_rules m rs) = map basic_rewritten rs /\
  (forall k, In k (map fst m) -> In k (map fst (fst (BasicProtection.visit_rules m rs)))) /\
  (forall r, In r rs -> is_style_rule r && BasicProtection.selector_matches (selectorText r) = true ->
             In (rule_id r) (map fst (fst (BasicProtection.visit_rules m rs)))).
Proof.
  induction rs as [|r rs IH]; intros m; simpl; [repeat split; auto; tauto|].
  unfold BasicProtection.visit_rule, basic_rewritten.
  destruct (is_style_rule r && BasicProtection.selector_matches (selectorText r)) eqn:E.
  - destruct (IH (BasicProtection.map_set (rule_id r) (cssText r) m)) as (A & B & C).
    destruct (BasicProtection.visit_rules (BasicProtection.map_set (rule_id r) (cssText r) m) rs)
      as [m2 rs''].
    simpl in *. split; [now f_equal|split].
    + intros k Hk. apply B. apply map_set_keys. now right.
    + intros r' [<-|Hr'] Hm.
      * apply B. apply map_set_keys. now left.
      * now apply C.
  - destruct (IH m) as (A & B & C).
    destruct (BasicProtection.visit_rules m rs) as [m2 rs''].
    simpl in *. split; [now f_equal|split; [exact B|]].
    intros r' [<-|Hr'] Hm; [congruence|now apply C].
Qed.

Lemma visit_sheets_spec (shs : list StyleSheet) : forall m,
  snd (BasicProtection.visit_sheets m shs) =
  map (fun sh => if sheet_accessible sh
                 then mkSheet true (map basic_rewritten (cssRules sh)) else sh) shs /\
  (forall sh r, In sh shs -> sheet_accessible sh = true -> In r (cssRules sh) ->
     is_style_rule r && BasicProtection.selector_matches (selectorText r) = true ->
     In (rule_id r) (map fst (fst (BasicProtection.visit_sheets m shs)))).
Proof.
  assert (Hkeep : forall shs m k, In k (map fst m) ->
            In k (map fst (fst (BasicProtection.visit_sheets m shs)))).
  { induction shs0 as [|sh shs0 IH]; intros m k Hk; simpl; [exact Hk|].
    destruct (sheet_accessible sh).
    - pose proof (proj1 (proj2 (visit_rules_spec (cssRules sh) m)) k Hk) as Hk1.
      destruct (BasicProtection.visit_rules m (cssRules sh)) as [m1 rs].
      specialize (IH m1 k Hk1).
      destruct (BasicProtection.visit_sheets m1 shs0) as [m2 shs'']. exact IH.
    - specialize (IH m k Hk).
      destruct (BasicProtection.visit_sheets m shs0) as [m2 shs'']. exact IH. }
  induction shs as [|sh shs IH]; intros m; simpl; [split; [reflexivity|tauto]|].
  destruct (sheet_accessible sh) eqn:Ea.
  - destruct (visit_rules_spec (cssRules sh) m) as (A & B & C).
    pose proof (Hkeep shs) as Hk.
    destruct (BasicProtection.visit_rules m (cssRules sh)) as [m1 rs] eqn:Ev.
    destruct (IH m1) as [IH1 IH2]. specialize (Hk m1).
    destruct (BasicProtection.visit_sheets m1 shs) as [m2 shs''].
    simpl in *. split; [subst rs; now f_equal|].
    intros sh' r [<-|Hsh] Hacc Hr Hm.
    + apply Hk. now apply C.
    + now apply (IH2 sh' r).
  - destruct (IH m) as [IH1 IH2].
    destruct (BasicProtection.visit_sheets m shs) as [m2 shs''].
    simpl in *. split; [now f_equal|].
    intros sh' r [<-|Hsh] Hacc Hr Hm; [congruence|now apply (IH2 sh' r)].
Qed.

(** The basic disable path (lines 1318-1352) strips exactly the style
    rules whose selector names one of the listed properties or pseudo
    elements, in the sheets it can read: every other rule, and every
    cross-origin sheet, is left as it was; and each stripped rule has an
    entry in [originalStyles]. *)
Theorem basic_disable_rules (s : BasicProtection.ProtState) :
  let s' := snd (BasicProtection.disableCopyProtection s) in
  styleSheets (BasicProtection.doc s') =
  map (fun sh => if sheet_accessible sh
                 then mkSheet true (map basic_rewritten (cssRules sh)) else sh)
      (styleSheets (BasicProtection.doc s)) /\
  (forall sh r, In sh (styleSheets (BasicProtection.doc s)) -> sheet_accessible sh = true ->
     In r (cssRules sh) ->
     is_style_rule r && BasicProtection.selector_matches (selectorText r) = true ->
     In (rule_id r) (map fst (BasicProtection.originalStyles s'))).
Proof.
  unfold BasicProtection.disableCopyProtection.
  destruct (visit_sheets_spec (styleSheets (BasicProtection.doc s))
              (BasicProtection.originalStyles s)) as [A B].
  destruct (BasicProtection.visit_sheets (BasicProtection.originalStyles s)
              (styleSheets (BasicProtection.doc s))) as [m shs].
  simpl in *. split; [exact A|exact B].
Qed.

(** Toggling twice from the protected state removes, in both scripts, the
    page's own [<style>] elements whose text contains the signature the
    enable path looks for ('user-select: text !important' in the enhanced
    script, 'user-select: auto' in the basic one), not only the injected
    one. *)
Theorem toggle_twice_style_elements (d : StyleDoc) (s : BasicProtection.ProtState)
        (Hs : BasicProtection.copyProtectionDisabled s = false) :
  styleElements (snd (snd (EnhancedProtection.toggleCopyProtection
                             (snd (EnhancedProtection.toggleCopyProtection (false, d)))))) =
  filter (fun t => negb (includes t "user-select: text !important")) (styleElements d) /\
  styleElements (BasicProtection.doc
                   (snd (BasicProtection.toggleCopyProtection
                           (snd (BasicProtection.toggleCopyProtection s))))) =
  filter (fun t => negb (includes t "user-select: auto"))
         (styleElements (BasicProtection.doc s)).
Proof.
  split.
  - simpl. rewrite filter_app. simpl.
    replace (includes EnhancedProtection.override_text "user-select: text !important")
      with true by (vm_compute; reflexivity).
    apply app_nil_r.
  - unfold BasicProtection.toggleCopyProtection at 2. rewrite Hs.
    unfold BasicProtection.disableCopyProtection.
    destruct (BasicProtection.visit_sheets _ _) as [m shs]. simpl.
    rewrite filter_app. simpl.
    replace (includes BasicProtection.allow_copy_text "user-select: auto")
      with true by (vm_compute; reflexivity).
    apply app_nil_r.
Qed.

Lemma toggle_twice_style_elements_witness :
  styleElements (BasicProtection.doc
                   (snd (BasicProtection.toggleCopyProtection
                           (snd (BasicProtection.toggleCopyProtection
                                   (BasicProtection.mkProt [] false
                                      (mkStyleDoc [] ["p { user-select: auto }"] []))))))) = [].
Proof.
  rewrite (proj2 (toggle_twice_style_elements (mkStyleDoc [] [] [])
                    (BasicProtection.mkProt [] false
                       (mkStyleDoc [] ["p { user-select: auto }"] [])) eq_refl)).
  vm_compute. reflexivity.
Defined.

Lemma deleteRule_incl (i : nat) : forall (l l' : list CSSRule),
  EnhancedProtection.deleteRule i l = Some l' -> incl l' l.
Proof.
  induction i as [|i IH]; intros [|r l] l' H; simpl in H; try discriminate.
  - injection H as <-. intros x Hx. now right.
  - destruct (EnhancedProtection.deleteRule i l) as [l1|] eqn:E; simpl in H; [|discriminate].
    injection H as <-. intros x [<-|Hx]; [now left|right; exact (IH l l1 E x Hx)].
Qed.

Lemma delete_blocking_incl (snap : list CSSRule) : forall i live,
  incl (EnhancedProtection.delete_blocking i snap live) live.
Proof.
  induction snap as [|r snap IH]; intros i live; simpl; [apply incl_refl|].
  destruct (EnhancedProtection.blocks_selection r); [|apply IH].
  destruct (EnhancedProtection.deleteRule i live) as [live'|] eqn:E; [|apply incl_refl].
  eapply incl_tran; [apply IH|exact (deleteRule_incl _ _ _ E)].
Qed.

Lemma delete_blocking_keeps_head (snap : list CSSRule) : forall i r live,
  (1 <= i)%nat -> exists l', EnhancedProtection.delete_blocking i snap (r :: live) = r :: l'.
Proof.
  induction snap as [|x snap IH]; intros i r live Hi; simpl; [eauto|].
  destruct (EnhancedProtection.blocks_selection x); [|apply IH; lia].
  destruct i as [|i]; [lia|]. simpl.
  destruct (EnhancedProtection.deleteRule i live) as [live'|]; simpl; [apply IH; lia|eauto].
Qed.

(** The enhanced disable path deletes by the index of the snapshot while
    the live rule list shrinks (lines 697-707).  In a readable sheet that
    starts with two rules blocking selection followed by one that does
    not, the second blocking rule stays (at the head of the sheet) and the
    rule that does not block selection is deleted in its place. *)
Theorem enhanced_disable_shifted_deletion (b1 b2 n : CSSRule) (rest : list CSSRule)
        (H1 : EnhancedProtection.blocks_selection b1 = true)
        (H2 : EnhancedProtection.blocks_selection b2 = true)
        (Hn : EnhancedProtection.blocks_selection n = false)
        (Hnotin : ~ In n rest) :
  exists l', cssRules (EnhancedProtection.clean_sheet (mkSheet true (b1 :: b2 :: n :: rest)))
             = b2 :: l' /\ ~ In n (b2 :: l').
Proof.
  unfold EnhancedProtection.clean_sheet. simpl sheet_accessible. cbn iota.
  simpl cssRules. simpl. rewrite H1. simpl. rewrite H2. simpl. rewrite Hn.
  destruct (delete_blocking_keeps_head rest 3 b2 rest ltac:(lia)) as [l' Hl'].
  exists l'. rewrite Hl'. split; [reflexivity|].
  intros [Heq|Hin]; [subst; congruence|].
  assert (Hin' : In n (b2 :: l')) by (right; exact Hin). rewrite <- Hl' in Hin'.
  apply (delete_blocking_incl rest 3 (b2 :: rest)) in Hin'.
  destruct Hin' as [Heq|Hin']; [subst; congruence|contradiction].
Qed.

Definition rule_none (k : nat) : CSSRule := mkRule k true ".x" [("user-select", "none")].
Definition rule_plain (k : nat) : CSSRule := mkRule k true ".y" [("color", "red")].

Lemma enhanced_disable_shifted_deletion_witness :
  exists l', cssRules (EnhancedProtection.clean_sheet
                        (mkSheet true [rule_none 1; rule_none 2; rule_plain 3]))
             = rule_none 2 :: l' /\ ~ In (rule_plain 3) (rule_none 2 :: l').
Proof.
  apply (enhanced_disable_shifted_deletion (rule_none 1) (rule_none 2) (rule_plain 3) []);
    [reflexivity|reflexivity|reflexivity|simpl; tauto].
Defined.

(** *** Sending with retries *)

(** The sends of the ping pre-check. *)
Definition ping_sends (backgroundReady : bool) (action : string) : nat :=
  if negb backgroundReady && negb (String.eqb action "ping") then 1%nat else 0%nat.

Lemma retry_loop_success (attempt : nat -> Messaging.SendOutcome) (maxRetries : nat)
      (r : option ChromeResponse) (j : nat) : forall i fuel,
  (i + fuel)%nat = maxRetries -> (j < fuel)%nat ->
  (forall m, (m < j)%nat -> exists e, attempt (i + m)%nat = Messaging.Failed e) ->
  attempt (i + j)%nat = Messaging.Delivered r ->
  let '(res, n, w) := Messaging.retry_loop attempt maxRetries i fuel in
  res = Messaging.Resolved r /\ n = S j /\ (w + 1000 * 2 ^ i = 1000 * 2 ^ (i + j))%nat.
Proof.
  induction j as [|j IH]; intros i fuel Hsum Hj Hfail Hok;
    (destruct fuel as [|f]; [lia|]); cbn [Messaging.retry_loop].
  - rewrite Nat.add_0_r in Hok. rewrite Hok. rewrite Nat.add_0_r. auto.
  - destruct (Hfail 0%nat ltac:(lia)) as [e He]. rewrite Nat.add_0_r in He. rewrite He.
    destruct (Nat.eqb_spec i (maxRetries - 1)) as [Hi|Hi]; [lia|].
    assert (Hfail' : forall m, (m < j)%nat ->
                     exists e', attempt (S i + m)%nat = Messaging.Failed e').
    { intros m Hm. replace (S i + m)%nat with (i + S m)%nat by lia.
      apply Hfail. lia. }
    assert (Hok' : attempt (S i + j)%nat = Messaging.Delivered r).
    { replace (S i + j)%nat with (i + S j)%nat by lia. exact Hok. }
    assert (IH' := IH (S i) f ltac:(lia) ltac:(lia) Hfail' Hok').
    destruct (Messaging.retry_loop attempt maxRetries (S i) f) as [[res n0] w].
    destruct IH' as (A & B & C). split; [exact A|split; [lia|]].
    replace (i + S j)%nat with (S i + j)%nat by lia.
    rewrite <- C. rewrite Nat.pow_succ_r'. lia.
Qed.

(** [sendMessageWithRetry] (lines 127-154): when the first [k] sends
    reject and send [k] resolves, with [k < maxRetries], the call resolves
    with that answer after [k + 1] sends (plus the ping of the pre-check
    when the background was not known ready and the message is not a
    ping), having waited 1000, 2000, ..., 1000 * 2^(k-1) ms, that is
    1000 * (2^k - 1) ms. *)
Theorem retry_first_success (backgroundReady : bool) (action : string)
        (ping : Messaging.SendOutcome) (attempt : nat -> Messaging.SendOutcome)
        (maxRetries k : nat) (r : option ChromeResponse)
        (Hk : (k < maxRetries)%nat)
        (Hfail : forall m, (m < k)%nat -> exists e, attempt m = Messaging.Failed e)
        (Hok : attempt k = Messaging.Delivered r) :
  let '(_, res, sends, waited) :=
    Messaging.sendMessageWithRetry backgroundReady action ping attempt maxRetries in
  res = Messaging.Resolved r /\ sends = (ping_sends backgroundReady action + S k)%nat /\
  (waited + 1000 = 1000 * 2 ^ k)%nat.
Proof.
  unfold Messaging.sendMessageWithRetry, ping_sends.
  pose proof (retry_loop_success attempt maxRetries r k 0 maxRetries eq_refl Hk Hfail Hok)
    as H.
  destruct (Messaging.retry_loop attempt maxRetries 0 maxRetries) as [[res n] w].
  destruct H as (A & B & C). simpl in C.
  destruct (negb backgroundReady && negb (String.eqb action "ping"));
    [destruct ping|]; simpl; repeat split; auto; lia.
Qed.

Definition two_failures (i : nat) : Messaging.SendOutcome :=
  if Nat.ltb i 2 then Messaging.Failed "Could not establish connection"
  else Messaging.Delivered (Some ok_resp).

Lemma retry_first_success_witness :
  let '(_, res, sends, waited) :=
    Messaging.sendMessageWithRetry false "applyHeaders" (Messaging.Failed "no receiver")
      two_failures 5 in
  res = Messaging.Resolved (Some ok_resp) /\ sends = (ping_sends false "applyHeaders" + 3)%nat /\
  (waited + 1000 = 1000 * 2 ^ 2)%nat.
Proof.
  apply (retry_first_success false "applyHeaders" (Messaging.Failed "no receiver")
           two_failures 5 2 (Some ok_resp)).
  - lia.
  - intros m Hm. exists "Could not establish connection".
    destruct m as [|[|m]]; [reflexivity|reflexivity|lia].
  - reflexivity.
Defined.

Lemma retry_loop_fail (attempt : nat -> Messaging.SendOutcome) (maxRetries : nat)
      (e : string) (fuel : nat) : forall i,
  (i + fuel)%nat = maxRetries -> (1 <= fuel)%nat ->
  (forall m, (i <= m < maxRetries)%nat -> exists e', attempt m = Messaging.Failed e') ->
  attempt (maxRetries - 1)%nat = Messaging.Failed e ->
  let '(res, n, w) := Messaging.retry_loop attempt maxRetries i fuel in
  res = Messaging.Rejected e /\ n = fuel /\
  (w + 1000 * 2 ^ i = 1000 * 2 ^ (maxRetries - 1))%nat.
Proof.
  induction fuel as [|f IH]; intros i Hsum Hf Hfail Hlast; [lia|].
  cbn [Messaging.retry_loop].
  destruct (Hfail i ltac:(lia)) as [e0 He0]. rewrite He0.
  destruct (Nat.eqb_spec i (maxRetries - 1)) as [Heq|Hne].
  - subst i. rewrite He0 in Hlast. injection Hlast as ->.
    repeat split; lia.
  - assert (IH' := IH (S i) ltac:(lia) ltac:(lia)
                      (fun m Hm => Hfail m ltac:(lia)) Hlast).
    destruct (Messaging.retry_loop attempt maxRetries (S i) f) as [[res n0] w].
    destruct IH' as (A & B & C). split; [exact A|split; [lia|]].
    rewrite <- C. rewrite Nat.pow_succ_r'. lia.
Qed.

(** When every send rejects, [sendMessageWithRetry] with
    [maxRetries >= 1] rejects with the error of the last send, after
    [maxRetries] sends (plus the ping of the pre-check) and
    1000 * (2^(maxRetries-1) - 1) ms of waiting: there is no wait after the
    last failure. *)
Theorem retry_all_fail (backgroundReady : bool) (action : string)
        (ping : Messaging.SendOutcome) (attempt : nat -> Messaging.SendOutcome)
        (maxRetries : nat) (e : string)
        (Hmax : (1 <= maxRetries)%nat)
        (Hfail : forall m, (m < maxRetries)%nat -> exists e', attempt m = Messaging.Failed e')
        (Hlast : attempt (maxRetries - 1)%nat = Messaging.Failed e) :
  let '(_, res, sends, waited) :=
    Messaging.sendMessageWithRetry backgroundReady action ping attempt maxRetries in
  res = Messaging.Rejected e /\
  sends = (ping_sends backgroundReady action + maxRetries)%nat /\
  (waited + 1000 = 1000 * 2 ^ (maxRetries - 1))%nat.
Proof.
  unfold Messaging.sendMessageWithRetry, ping_sends.
  pose proof (retry_loop_fail attempt maxRetries e maxRetries 0 eq_refl Hmax
                (fun m Hm => Hfail m ltac:(lia)) Hlast) as H.
  destruct (Messaging.retry_loop attempt maxRetries 0 maxRetries) as [[res n] w].
  destruct H as (A & B & C). simpl in C.
  destruct (negb backgroundReady && negb (String.eqb action "ping"));
    [destruct ping|]; simpl; repeat split; auto; lia.
Qed.

Lemma retry_all_fail_witness :
  let '(_, res, sends, waited) :=
    Messaging.sendMessageWithRetry true "copyTables" (Messaging.Failed "unused")
      (fun _ => Messaging.Failed "Extension context invalidated") 5 in
  res = Messaging.Rejected "Extension context invalidated" /\
  sends = (ping_sends true "copyTables" + 5)%nat /\ (waited + 1000 = 1000 * 2 ^ (5 - 1))%nat.
Proof.
  apply (retry_all_fail true "copyTables" (Messaging.Failed "unused")
           (fun _ => Messaging.Failed "Extension context invalidated") 5
           "Extension context invalidated").
  - lia.
  - intros m _. exists "Extension context invalidated". reflexivity.
  - reflexivity.
Defined.

(** *** The background worker *)

Lemma worker_applyHeaders_result (hs : list Background.RequestHeader)
      (st : Background.BgState) :
  Background.applyHeaders hs st =
  if headers_accepted hs
  then (ok_resp, Background.mkBg hs (Background.build_rules hs))
  else (err_resp "updateDynamicRules rejected", Background.mkBg hs []).
Proof.
  unfold Background.applyHeaders. rewrite updateNetworkRules_result.
  destruct (headers_accepted hs); reflexivity.
Qed.

(** An [applyHeaders] message whose rules the platform rejects is answered
    [{success: false}], yet the worker has already stored the new headers
    ([getHeaders] returns them) and removed every rule installed before:
    no header is set on any request afterwards. *)
Theorem worker_failed_apply (hs : list Background.RequestHeader) (st : Background.BgState)
        (Hrej : headers_accepted hs = false) :
  let '(r, st1) := Worker.onMessage true (Worker.mkReq "applyHeaders" (Some hs)) st in
  Worker.br_success r = false /\
  Background.customHeaders st1 = hs /\
  Background.dynamicRules st1 = [] /\
  Worker.onMessage true (Worker.mkReq "getHeaders" None) st1 =
  (Worker.mkBgResp true None None (Some hs), st1).
Proof.
  unfold Worker.onMessage at 1. simpl.
  rewrite worker_applyHeaders_result, Hrej. simpl.
  repeat split.
Qed.

Lemma worker_failed_apply_witness :
  headers_accepted [Background.mkHeader "h1" "X Foo" "1" true] = false /\
  let '(r, st1) :=
    Worker.onMessage true
      (Worker.mkReq "applyHeaders" (Some [Background.mkHeader "h1" "X Foo" "1" true]))
      (Background.mkBg [] [Background.header_rule 0 (Background.mkHeader "h0" "X-Old" "v" true)]) in
  Worker.br_success r = false /\
  Background.customHeaders st1 = [Background.mkHeader "h1" "X Foo" "1" true] /\
  Background.dynamicRules st1 = [] /\
  Worker.onMessage true (Worker.mkReq "getHeaders" None) st1 =
  (Worker.mkBgResp true None None (Some [Background.mkHeader "h1" "X Foo" "1" true]), st1).
Proof.
  split; [vm_compute; reflexivity|].
  apply (worker_failed_apply [Background.mkHeader "h1" "X Foo" "1" true]
           (Background.mkBg [] [Background.header_rule 0
                                  (Background.mkHeader "h0" "X-Old" "v" true)])).
  vm_compute. reflexivity.
Defined.

(** Only [applyHeaders] and [clearHeaders] change the worker's state (its
    stored headers and installed rules); a refusal leaves the state as it
    was, except a refused [applyHeaders], which has stored the headers it
    carried and removed every rule. *)
Theorem worker_state_changes (isReady : bool) (request : Worker.BgRequest)
        (st : Background.BgState) :
  let '(response, st') := Worker.onMessage isReady request st in
  (st' <> st -> Worker.action request = "applyHeaders" \/
                Worker.action request = "clearHeaders") /\
  (Worker.br_success response = false ->
   st' = st \/
   (Worker.action request = "applyHeaders" /\
    exists hs, Worker.req_headers request = Some hs /\ st' = Background.mkBg hs [])).
Proof.
  unfold Worker.onMessage.
  destruct (negb isReady && negb (String.eqb (Worker.action request) "ping"));
    [split; [intros H; congruence|left; reflexivity]|].
  destruct (String.eqb (Worker.action request) "ping");
    [split; [intros H; congruence|left; reflexivity]|].
  destruct (String.eqb (Worker.action request) "updateTables");
    [split; [intros H; congruence|left; reflexivity]|].
  destruct (String.eqb (Worker.action request) "applyHeaders") eqn:Ea.
  - apply String.eqb_eq in Ea.
    destruct (Worker.req_headers request) as [hs|] eqn:Eh.
    + rewrite worker_applyHeaders_result.
      destruct (headers_accepted hs); simpl.
      * split; [intros _; left; exact Ea|discriminate].
      * split; [intros _; left; exact Ea|].
        intros _. right. split; [exact Ea|]. exists hs. split; reflexivity.
    + split; [intros H; congruence|left; reflexivity].
  - destruct (String.eqb (Worker.action request) "clearHeaders") eqn:Ec.
    + rewrite clearNetworkRules_empty. simpl. split; [|discriminate].
      intros _. right. now apply String.eqb_eq.
    + destruct (String.eqb (Worker.action request) "getHeaders");
        (split; [intros H; congruence|left; reflexivity]).
Qed.

(** A ready worker returns from [getHeaders] the headers of the last
    [applyHeaders], accepted by the platform or not; it answers success and
    has one rule per header installed when the platform accepts them, and
    failure with no rule otherwise.  After [clearHeaders] it stores no
    header and has no rule installed. *)
Theorem worker_round_trip (hs : list Background.RequestHeader) (st : Background.BgState) :
  let '(r1, st1) := Worker.onMessage true (Worker.mkReq "applyHeaders" (Some hs)) st in
  Background.customHeaders st1 = hs /\
  Worker.onMessage true (Worker.mkReq "getHeaders" None) st1 =
  (Worker.mkBgResp true None None (Some hs), st1) /\
  (if headers_accepted hs
   then r1 = Worker.bg_ok /\ Background.dynamicRules st1 = Background.build_rules hs
   else Worker.br_success r1 = false /\ Background.dynamicRules st1 = []) /\
  Worker.onMessage true (Worker.mkReq "clearHeaders" None) st1 =
  (Worker.bg_ok, Background.mkBg [] []) /\
  Worker.onMessage true (Worker.mkReq "getHeaders" None) (Background.mkBg [] []) =
  (Worker.mkBgResp true None None (Some []), Background.mkBg [] []).
Proof.
  unfold Worker.onMessage at 1. simpl. rewrite worker_applyHeaders_result.
  destruct (headers_accepted hs); cbn -[Background.clearNetworkRules];
    unfold Worker.onMessage; cbn -[Background.clearNetworkRules];
    rewrite clearNetworkRules_empty; repeat split.
Qed.

(** *** Request headers from the popup to the worker *)

Lemma filter_idem {A} (f : A -> bool) (l : list A) : filter f (filter f l) = filter f l.
Proof.
  induction l as [|a l IH]; simpl; [reflexivity|].
  destruct (f a) eqn:E; simpl; [rewrite E, IH|rewrite IH]; reflexivity.
Qed.

(** The popup's [applyHeaders] (useChromeAPI.ts) sends nothing when no
    header is enabled.  Otherwise, through the basic content script, the
    worker and the content script end up storing exactly the enabled
    headers, in order.  When the platform accepts their rules the answer
    is success and the worker has one rule each (ids 1, 2, ...), each
    setting its header's name; otherwise the answer is the platform's
    error and no rule is installed. *)
Theorem headers_end_to_end (hs : list Background.RequestHeader) (st : Background.BgState) :
  match HeaderFlow.popup_applyHeaders hs with
  | None => filter Background.h_enabled hs = []
  | Some sent =>
      let '(response, custom, bg') := HeaderFlow.applyHeaders true sent st in
      let enabledHeaders := filter Background.h_enabled hs in
      custom = enabledHeaders /\ Background.customHeaders bg' = enabledHeaders /\
      (if headers_accepted enabledHeaders
       then response = ok_resp /\
            Background.dynamicRules bg' = Background.build_rules enabledHeaders /\
            map Background.dr_id (Background.dynamicRules bg') =
              seq 1 (List.length enabledHeaders) /\
            map Background.dr_header (Background.dynamicRules bg') =
              map Background.h_name enabledHeaders
       else response = err_resp "updateDynamicRules rejected" /\
            Background.dynamicRules bg' = [])
  end.
Proof.
  unfold HeaderFlow.popup_applyHeaders.
  destruct (filter Background.h_enabled hs) as [|x xs] eqn:E; [reflexivity|].
  rewrite <- E. unfold HeaderFlow.applyHeaders. rewrite filter_idem.
  unfold Worker.onMessage. simpl. rewrite worker_applyHeaders_result.
  destruct (headers_accepted (filter Background.h_enabled hs)); simpl.
  - rewrite build_rules_ids, build_rules_headers. repeat split.
  - repeat split.
Qed.

(** The popup's [clearHeaders] disables every header, so a following
    [applyHeaders] of the popup sends nothing; the [clearHeaders] of the
    basic content script leaves it with no header and the worker with no
    header and no rule. *)
Theorem popup_clear_then_apply (hs : list Background.RequestHeader) (st : Background.BgState) :
  HeaderFlow.popup_applyHeaders (HeaderFlow.popup_clearHeaders hs) = None /\
  HeaderFlow.clearHeaders true st = (ok_resp, [], Background.mkBg [] []).
Proof.
  split.
  - unfold HeaderFlow.popup_applyHeaders, HeaderFlow.popup_clearHeaders.
    rewrite filter_all_false; [reflexivity|].
    intros x Hx. apply in_map_iff in Hx as [h [<- _]]. reflexivity.
  - unfold HeaderFlow.clearHeaders, Worker.onMessage. simpl.
    rewrite clearNetworkRules_empty. reflexivity.
Qed.

(** [toggleHeader(id)] twice gives back the list; deleting a header after
    toggling it deletes the same headers as deleting it directly; and no
    header with that id is left after [deleteHeader(id)]. *)
Theorem toggleHeader_involutive (id : string) (hs : list Background.RequestHeader) :
  HeaderFlow.toggleHeader id (HeaderFlow.toggleHeader id hs) = hs /\
  HeaderFlow.deleteHeader id (HeaderFlow.toggleHeader id hs) = HeaderFlow.deleteHeader id hs /\
  Forall (fun h => Background.h_id h <> id) (HeaderFlow.deleteHeader id hs).
Proof.
  unfold HeaderFlow.toggleHeader, HeaderFlow.deleteHeader.
  induction hs as [|[i n v en] hs IH]; simpl; [repeat split; constructor|].
  destruct IH as (A & B & C).
  destruct (String.eqb i id) eqn:E; simpl; rewrite ?E; simpl.
  - rewrite negb_involutive, A. split; [reflexivity|split; [exact B|exact C]].
  - rewrite A, B. split; [reflexivity|split; [reflexivity|]].
    constructor; [|exact C]. simpl. now apply String.eqb_neq.
Qed.

(** *** The popup's table list *)

Lemma existsb_filter_neq (s : list Z) (x y : Z) :
  Z.eqb x y = false ->
  existsb (Z.eqb x) (filter (fun z => negb (Z.eqb z y)) s) = existsb (Z.eqb x) s.
Proof.
  intros Hxy. induction s as [|z s IH]; simpl; [reflexivity|].
  destruct (Z.eqb_spec z y) as [->|Hzy]; simpl.
  - rewrite Hxy. exact IH.
  - now rewrite IH.
Qed.

Lemma existsb_filter_eq (s : list Z) (y : Z) :
  existsb (Z.eqb y) (filter (fun z => negb (Z.eqb z y)) s) = false.
Proof.
  induction s as [|z s IH]; simpl; [reflexivity|].
  destruct (Z.eqb_spec z y) as [->|Hzy]; simpl; [exact IH|].
  rewrite IH. destruct (Z.eqb_spec y z); [congruence|reflexivity].
Qed.

(** [toggleTableSelection(tableId)] flips the membership of [tableId] in
    the selection and leaves every other id as it was. *)
Theorem toggleTableSelection_membership (tableId x : Z) (s : list Z) :
  TableTools.set_has (TableTools.toggleTableSelection tableId s) x =
  if Z.eqb x tableId then negb (TableTools.set_has s x) else TableTools.set_has s x.
Proof.
  unfold TableTools.toggleTableSelection, TableTools.set_delete, TableTools.set_add,
         TableTools.set_has.
  destruct (Z.eqb_spec x tableId) as [->|Hne].
  - destruct (existsb (Z.eqb tableId) s) eqn:E.
    + apply existsb_filter_eq.
    + rewrite existsb_app, E. simpl. now rewrite Z.eqb_refl.
  - apply Z.eqb_neq in Hne.
    destruct (existsb (Z.eqb tableId) s).
    + now apply existsb_filter_neq.
    + rewrite existsb_app. simpl. rewrite Hne. simpl. apply orb_false_r.
Qed.

(** [formatTablePreview] never shows an empty preview and never more than
    103 code units: an empty preview becomes the placeholder "无预览内容",
    one of 1 to 100 units is shown as it is, a longer one is cut to its
    first 100 units followed by "...". *)
Theorem formatTablePreview_bounds (preview : JsStr.JsString) :
  let out := TableTools.formatTablePreview preview in
  (preview = [] -> out = TableTools.no_preview) /\
  ((1 <= List.length preview <= 100)%nat -> out = preview) /\
  ((100 < List.length preview)%nat ->
   out = (firstn 100 preview ++ JsStr.of_ascii "...")%list /\ List.length out = 103%nat) /\
  (1 <= List.length out <= 103)%nat.
Proof.
  unfold TableTools.formatTablePreview.
  destruct preview as [|u us] eqn:Ep.
  - simpl. repeat split; intros; try reflexivity; lia.
  - rewrite <- Ep. assert (Hl1 : (1 <= List.length preview)%nat) by (subst; simpl; lia).
    destruct (Nat.ltb_spec 100 (List.length preview)) as [Hl|Hl].
    + assert (Hlen : List.length (firstn 100 preview ++ JsStr.of_ascii "...")%list = 103%nat)
        by (rewrite length_app, length_firstn, Nat.min_l by lia; reflexivity).
      split; [intros H; subst; discriminate|].
      split; [intros H; lia|].
      split; [intros _; split; [reflexivity|exact Hlen]|]. lia.
    + split; [intros H; subst; discriminate|].
      split; [reflexivity|]. split; [intros H; lia|]. lia.
Qed.

(** *** Table previews *)

Lemma preview_trunc_bounds (c2 t : JsStr.JsString) :
  c2 <> [] ->
  (let cellText3 :=
     if Nat.ltb 15 (List.length c2) then (firstn 15 c2 ++ JsStr.of_ascii "...")%list else c2 in
   if JsStr.eqb cellText3 Preview.encoding_marker then None else Some cellText3) = Some t ->
  (1 <= List.length t <= 18)%nat /\ t <> Preview.encoding_marker.
Proof.
  intros Hc2 H. cbv zeta in H. unfold JsStr.eqb in H.
  destruct (Nat.ltb_spec 15 (List.length c2)).
  - destruct (list_eq_dec N.eq_dec (firstn 15 c2 ++ JsStr.of_ascii "...")%list
                Preview.encoding_marker) as [|Hne]; [discriminate|].
    assert (t = (firstn 15 c2 ++ JsStr.of_ascii "...")%list) as -> by congruence.
    split; [|exact Hne].
    rewrite length_app, length_firstn, Nat.min_l by lia. simpl. lia.
  - destruct (list_eq_dec N.eq_dec c2 Preview.encoding_marker) as [|Hne]; [discriminate|].
    injection H as <-. split; [|exact Hne].
    destruct c2; [congruence|simpl in *; lia].
Qed.

Lemma preview_tail_bounds (x t : JsStr.JsString) :
  x <> [] ->
  (let cellText2 :=
     if Preview.has_cjk x then x
     else if Preview.has_non_ascii x && Nat.ltb 10 (List.length x)
          then Preview.encoding_marker else x in
   let cellText3 :=
     if Nat.ltb 15 (List.length cellText2)
     then (firstn 15 cellText2 ++ JsStr.of_ascii "...")%list else cellText2 in
   if JsStr.eqb cellText3 Preview.encoding_marker then None else Some cellText3) = Some t ->
  (1 <= List.length t <= 18)%nat /\ t <> Preview.encoding_marker.
Proof.
  intros Hx H. cbv zeta in H.
  destruct (Preview.has_cjk x); [exact (preview_trunc_bounds x t Hx H)|].
  destruct (Preview.has_non_ascii x && Nat.ltb 10 (List.length x)).
  - exact (preview_trunc_bounds Preview.encoding_marker t ltac:(discriminate) H).
  - exact (preview_trunc_bounds x t Hx H).
Qed.

Lemma preview_cell_bounds (c : Preview.PCell) (t : JsStr.JsString) :
  Preview.preview_cell c = Some t ->
  (1 <= List.length t <= 18)%nat /\ t <> Preview.encoding_marker.
Proof.
  unfold Preview.preview_cell. intros H.
  destruct (JsStr.trim (Preview.pc_textContent c)) as [|u us].
  - destruct (Nat.ltb 0 (Preview.pc_inputs c)).
    + refine (preview_tail_bounds _ t _ H). discriminate.
    + destruct (JsStr.trim (Preview.pc_innerHTML c)) as [|v vs].
      * discriminate H.
      * exact (preview_tail_bounds Preview.html_marker t ltac:(discriminate) H).
  - exact (preview_tail_bounds (u :: us) t ltac:(discriminate) H).
Qed.

Definition preview_cell_ok (t : JsStr.JsString) : Prop :=
  (1 <= List.length t <= 18)%nat /\ t <> Preview.encoding_marker.

Lemma preview_cells_ok (l : list Preview.PCell) :
  (List.length (flat_map (fun c => match Preview.preview_cell c with
                                   | Some t => [t] | None => [] end) l) <= List.length l)%nat /\
  Forall preview_cell_ok
    (flat_map (fun c => match Preview.preview_cell c with
                        | Some t => [t] | None => [] end) l).
Proof.
  induction l as [|c l [IHl IHf]]; simpl; [split; [lia|constructor]|].
  destruct (Preview.preview_cell c) as [t|] eqn:E; simpl; [|split; [lia|exact IHf]].
  split; [lia|constructor; [apply (preview_cell_bounds c t E)|exact IHf]].
Qed.

Lemma preview_rows_flat (m : nat) (L : list (list Preview.PCell)) :
  (m <= 5)%nat ->
  let out := flat_map (fun row =>
               match flat_map (fun c => match Preview.preview_cell c with
                                        | Some t => [t] | None => [] end)
                              (firstn m row) with
               | [] => []
               | rowCells => [rowCells]
               end) L in
  (List.length out <= List.length L)%nat /\
  Forall (fun row => (1 <= List.length row <= 5)%nat /\ Forall preview_cell_ok row) out.
Proof.
  intros Hm. induction L as [|row L [IHl IHf]]; simpl; [split; [lia|constructor]|].
  destruct (preview_cells_ok (firstn m row)) as [Hlen Hok].
  destruct (flat_map (fun c => match Preview.preview_cell c with
                               | Some t => [t] | None => [] end) (firstn m row))
    as [|t ts] eqn:E; simpl; [split; [lia|exact IHf]|].
  split; [lia|constructor; [|exact IHf]].
  split; [|exact Hok]. rewrite length_firstn in Hlen. simpl in *. lia.
Qed.

(** [getTablePreview] reads at most 3 rows; each row it keeps has 1 to 5
    cell texts; each text has 1 to 18 code units (at most 15 and "...")
    and is never the encoding marker "[编码问题]", which is only used to
    drop a cell. *)
Theorem preview_rows_bounds (rows : list (list Preview.PCell)) :
  (List.length (Preview.preview_rows rows) <= 3)%nat /\
  Forall (fun row => (1 <= List.length row <= 5)%nat /\
                     Forall (fun t => (1 <= List.length t <= 18)%nat /\
                                      t <> Preview.encoding_marker) row)
         (Preview.preview_rows rows).
Proof.
  unfold Preview.preview_rows.
  destruct (preview_rows_flat
              (Nat.min 5 (match rows with r :: _ => List.length r | [] => 0%nat end))
              (firstn 3 rows) (Nat.le_min_l _ _)) as [Hl Hf].
  split.
  - rewrite length_firstn in Hl. lia.
  - exact Hf.
Qed.

(** *** Timers *)

(** Each call comes before the timer of the previous one is due. *)
Fixpoint burst (wait prev : nat) (ts : list nat) : bool :=
  match ts with
  | [] => true
  | t :: ts' => Nat.ltb t (prev + wait) && burst wait t ts'
  end.

Lemma debounce_burst_pending (wait : nat) (ts : list nat) : forall t0,
  burst wait t0 ts = true ->
  Timing.debounce_run wait false (Some (t0 + wait)%nat) ts = [(last (t0 :: ts) 0 + wait)%nat] /\
  Timing.debounce_run wait true (Some (t0 + wait)%nat) ts = [].
Proof.
  induction ts as [|t ts IH]; intros t0 Hb; [split; reflexivity|].
  simpl in Hb. apply andb_prop in Hb as [Ht Hb].
  apply Nat.ltb_lt in Ht. destruct (IH t Hb) as [A B].
  cbn [Timing.debounce_run].
  destruct (Nat.leb_spec (t0 + wait) t); [lia|].
  simpl. rewrite A, B. split; reflexivity.
Qed.

(** A burst of calls each less than [wait] ms after the previous one makes
    the trailing [debounce] (the one of utils.ts, and the enhanced script's
    with [immediate = false]) run the function once, [wait] ms after the
    last call; with [immediate = true] the function runs once, at the
    first call. *)
Theorem debounce_burst (wait t0 : nat) (ts : list nat)
        (Hburst : burst wait t0 ts = true) :
  Timing.debounce_run wait false None (t0 :: ts) = [(last (t0 :: ts) 0 + wait)%nat] /\
  Timing.debounce_run wait true None (t0 :: ts) = [t0].
Proof.
  destruct (debounce_burst_pending wait ts t0 Hburst) as [A B].
  cbn [Timing.debounce_run]. simpl. rewrite A, B. split; reflexivity.
Qed.

Lemma debounce_burst_witness :
  burst 300 0 [100; 250; 400]%nat = true /\
  Timing.debounce_run 300 false None (0 :: [100; 250; 400])%nat =
    [(last (0 :: [100; 250; 400]) 0 + 300)%nat] /\
  Timing.debounce_run 300 true None (0 :: [100; 250; 400])%nat = [0%nat].
Proof.
  split; [reflexivity|].
  apply (debounce_burst 300 0 [100; 250; 400]%nat). reflexivity.
Defined.





(** The output of [throttle_run] from a deadline [d]: the first run at or
    after [d], each next one at least [limit] after the previous. *)
Fixpoint spaced_from (limit d : nat) (l : list nat) : bool :=
  match l with
  | [] => true
  | t :: l' => Nat.leb d t && spaced_from limit (t + limit) l'
  end.

Lemma throttle_spaced (limit : nat) (calls : list nat) : forall d,
  spaced_from limit d (Timing.throttle_run limit (Some d) calls) = true.
Proof.
  induction calls as [|t calls IH]; intros d; simpl; [reflexivity|].
  destruct (Nat.ltb_spec t d); [apply IH|].
  simpl. apply andb_true_intro. split; [now apply Nat.leb_le|apply IH].
Qed.

Lemma throttle_incl (limit : nat) (calls : list nat) : forall u,
  incl (Timing.throttle_run limit u calls) calls.
Proof.
  induction calls as [|t calls IH]; intros u; simpl; [apply incl_refl|].
  destruct (match u with Some d => Nat.ltb t d | None => false end).
  - apply incl_tl, IH.
  - apply incl_cons; [left; reflexivity|apply incl_tl, IH].
Qed.

(** [throttle] (utils.ts) runs the function at the first call; it only
    runs it at times the function was called; and two runs are always at
    least [limit] ms apart. *)
Theorem throttle_spacing (limit t0 : nat) (rest : list nat) :
  let runs := Timing.throttle_run limit None (t0 :: rest) in
  hd_error runs = Some t0 /\ incl runs (t0 :: rest) /\ spaced_from limit t0 runs = true.
Proof.
  split; [reflexivity|split].
  - apply throttle_incl.
  - simpl. rewrite Nat.leb_refl. apply throttle_spaced.
Qed.

